(** * Document-analysis upload server: a shallow embedding of [server.js]

    The repository is one Express application, kept in three near-identical
    copies.  Each copy exposes [POST /api/upload]: the uploaded file goes to
    Document AI for text extraction, the extracted text goes three times to a
    Vertex AI generative model (summary, key terms, risk assessment), and the
    four strings come back as one JSON object.

    The embedding follows the JavaScript as it is written:
    - strings are sequences of UTF-16 code units, values are JavaScript
      values with their truthiness ([ToBoolean]), [||] and [?.];
    - the two remote services and the platform functions the module calls
      ([JSON.parse], the [VertexAI] constructor) are oracles; a handler is a
      computation in a small monad that consults the oracles, records every
      remote call in a trace, and can throw;
    - module start-up (configuration, credential parsing, client
      construction) is a function from the process environment to the
      module-level constants the handlers close over. *)

From Stdlib Require Import List NArith ZArith String Ascii Bool Lia.
From Stdlib Require Import Floats.SpecFloat.
Import ListNotations.

Set Implicit Arguments.
Set Warnings "-register-all".

(* ================================================================== *)
(** * JavaScript strings and values                                     *)
(* ================================================================== *)

Module Js.

Local Open Scope N_scope.

(** A JavaScript string: its UTF-16 code units. *)
Definition js_string := list N.

(** A source literal (all literals of [server.js] are ASCII). *)
Fixpoint lit (s : string) : js_string :=
  match s with
  | EmptyString => []
  | String c r => N_of_ascii c :: lit r
  end.

Definition LF : N := 10.
Definition BACKSLASH : N := 92.
Definition LOWER_N : N := 110.

Fixpoint js_string_eqb (a b : js_string) : bool :=
  match a, b with
  | [], [] => true
  | x :: a', y :: b' => N.eqb x y && js_string_eqb a' b'
  | _, _ => false
  end.

(** [t] occurs in [s] as a contiguous run of code units. *)
Definition occurs_in (t s : js_string) : Prop :=
  exists pre post, s = pre ++ t ++ post.

Fixpoint starts_with (t s : js_string) : bool :=
  match t, s with
  | [], _ => true
  | x :: t', y :: s' => N.eqb x y && starts_with t' s'
  | _ :: _, [] => false
  end.

(** [String.prototype.includes]. *)
Fixpoint includes (s t : js_string) : bool :=
  starts_with t s ||
  match s with
  | [] => false
  | _ :: s' => includes s' t
  end.

(** ECMAScript [WhiteSpace] and [LineTerminator] code points, the ones
    [String.prototype.trim] strips: TAB, LF, VT, FF, CR, SP, NBSP,
    U+1680, U+2000..U+200A, LS, PS, U+202F, U+205F, U+3000, BOM. *)
Definition is_white_space (c : N) : bool :=
  ((9 <=? c) && (c <=? 13)) || (c =? 32) || (c =? 160) || (c =? 5760)
  || ((8192 <=? c) && (c <=? 8202))
  || (c =? 8232) || (c =? 8233) || (c =? 8239) || (c =? 8287)
  || (c =? 12288) || (c =? 65279).

Fixpoint trimStart (s : js_string) : js_string :=
  match s with
  | [] => []
  | c :: r => if is_white_space c then trimStart r else s
  end.

Definition trimEnd (s : js_string) : js_string := rev (trimStart (rev s)).

(** [String.prototype.trim]. *)
Definition trim (s : js_string) : js_string := trimEnd (trimStart s).

(** [s.replace(/\\n/g, '\n')]: the regular expression matches the two
    code units backslash, [n]; with the [g] flag every match, scanning left
    to right without overlap, becomes one line feed. *)
Fixpoint replace_escaped_newlines (s : js_string) : js_string :=
  match s with
  | [] => []
  | c :: r =>
      match r with
      | d :: r' =>
          if (c =? BACKSLASH) && (d =? LOWER_N)
          then LF :: replace_escaped_newlines r'
          else c :: replace_escaped_newlines r
      | [] => [c]
      end
  end.

(** JavaScript values, as far as the server meets them: what [JSON.parse]
    can return, plus [undefined].  Numbers are IEEE doubles. *)
Inductive value : Type :=
| VUndefined
| VNull
| VBool (b : bool)
| VNumber (x : spec_float)
| VString (s : js_string)
| VArray (items : list value)
| VObject (props : list (string * value)).

(** [ToBoolean]: [undefined], [null], [false], [+0], [-0], [NaN] and the
    empty string are falsy, everything else (every object) is truthy. *)
Definition to_boolean (v : value) : bool :=
  match v with
  | VUndefined | VNull => false
  | VBool b => b
  | VNumber (S754_zero _) | VNumber S754_nan => false
  | VNumber _ => true
  | VString [] => false
  | VString (_ :: _) => true
  | VArray _ | VObject _ => true
  end.

(** [a || b]. *)
Definition js_or (a b : value) : value := if to_boolean a then a else b.

(** [s || d] on a string that may be [undefined]. *)
Definition or_string (s : option js_string) (d : js_string) : js_string :=
  match s with
  | Some (c :: r) => c :: r
  | Some [] | None => d
  end.

(** Property lookup on an object literal, first binding of the key. *)
Fixpoint get_prop (k : string) (props : list (string * value)) : option value :=
  match props with
  | [] => None
  | (k', v) :: rest => if String.eqb k k' then Some v else get_prop k rest
  end.

(** What a value is once [JSON.stringify] has written it and the client
    has parsed it: a number that is not finite becomes [null], [-0] becomes
    [0], an [undefined] element of an array becomes [null], an [undefined]
    property of an object is left out; strings, booleans, [null] and finite
    numbers come through unchanged.  ([undefined] itself has no JSON text
    and stays [undefined].)  A [VObject] lists the properties in the order
    the object enumerates them. *)
Fixpoint to_json (v : value) : value :=
  match v with
  | VUndefined | VNull | VBool _ | VString _ => v
  | VNumber (S754_zero _) => VNumber (S754_zero false)
  | VNumber (S754_finite _ _ _) => v
  | VNumber (S754_infinity _) | VNumber S754_nan => VNull
  | VArray items =>
      VArray
        ((fix elements (l : list value) : list value :=
            match l with
            | [] => []
            | VUndefined :: r => VNull :: elements r
            | i :: r => to_json i :: elements r
            end) items)
  | VObject props =>
      VObject
        ((fix members (l : list (string * value)) : list (string * value) :=
            match l with
            | [] => []
            | (_, VUndefined) :: r => members r
            | (k, x) :: r => (k, to_json x) :: members r
            end) props)
  end.

(** The members of an object literal as the client reads them back from
    [res.json(obj)]. *)
Fixpoint json_members (props : list (string * value)) : list (string * value) :=
  match props with
  | [] => []
  | (_, VUndefined) :: r => json_members r
  | (k, x) :: r => (k, to_json x) :: json_members r
  end.

(** [Buffer.prototype.toString('base64')]. *)
Definition base64_alphabet : js_string :=
  lit "ABCDEFGHIJKLMNOPQRSTUVWXYZabcdefghijklmnopqrstuvwxyz0123456789+/".

Definition base64_digit (i : N) : N := nth (N.to_nat i) base64_alphabet 0.

Definition PAD : N := 61.

Fixpoint base64 (bytes : list N) : js_string :=
  match bytes with
  | [] => []
  | [a] =>
      [ base64_digit (N.shiftr a 2);
        base64_digit (N.shiftl (N.land a 3) 4);
        PAD; PAD ]
  | [a; b] =>
      [ base64_digit (N.shiftr a 2);
        base64_digit (N.lor (N.shiftl (N.land a 3) 4) (N.shiftr b 4));
        base64_digit (N.shiftl (N.land b 15) 2);
        PAD ]
  | a :: b :: c :: rest =>
      base64_digit (N.shiftr a 2)
      :: base64_digit (N.lor (N.shiftl (N.land a 3) 4) (N.shiftr b 4))
      :: base64_digit (N.lor (N.shiftl (N.land b 15) 2) (N.shiftr c 6))
      :: base64_digit (N.land c 63)
      :: base64 rest
  end.

End Js.
Import Js.

(* ================================================================== *)
(** * The remote services and the handler monad                         *)
(* ================================================================== *)

Module Cloud.

(** What a rejected call carries, as the handlers read it:
    [err.response?.data] and [err.message].  The clients reject with
    [Error] objects, whose [message] is a string. *)
Record error_response := { err_data : value }.

Record js_error := {
  err_response : option error_response;
  err_message : js_string
}.

Inductive outcome (A : Type) : Type :=
| Returns (a : A)
| Throws (e : js_error).
Arguments Throws {A} e.

(** [req.file] as multer's memory storage fills it in. *)
Record uploaded_file := {
  originalname : js_string;
  mimetype : js_string;
  size : N;
  buffer : list N
}.

Record request := { file : option uploaded_file }.

Record response := {
  status : N;
  body : list (string * value)
}.

(** [res.status(code).json(obj)]. *)
Definition res_status_json (code : N) (obj : list (string * value)) : response :=
  {| status := code; body := json_members obj |}.

(** [res.json(obj)]: Express answers 200 unless told otherwise. *)
Definition res_json (obj : list (string * value)) : response :=
  res_status_json 200 obj.

(** ** Document AI: [documentai.projects.locations.processors.process] *)

Record auth_options := {
  auth_credentials : value;
  auth_projectId : js_string;
  auth_scopes : list js_string
}.

Record documentai_client := {
  da_version : js_string;
  da_auth : auth_options
}.

Record raw_document := { content : js_string; mimeType : js_string }.
Record request_body := { rawDocument : raw_document }.
Record process_params := { name : js_string; requestBody : request_body }.

Record document := { doc_text : option js_string }.
Record process_data := { data_document : option document }.
Record process_result := { data : process_data }.

(** ** Vertex AI: [model.generateContent] *)

Record vertex_options := {
  vo_project : js_string;
  vo_location : js_string;
  vo_googleAuthOptions : option value
}.

Record generative_model := {
  gm_client : vertex_options;
  gm_model : js_string
}.

Record Part := { text : option js_string }.
Record Content := { role : option js_string; parts : option (list Part) }.

Record generate_request := {
  contents : list Content;
  temperature : spec_float;
  maxOutputTokens : N
}.

Record candidate := { cand_content : option Content }.
Record generate_response := { candidates : option (list candidate) }.
Record generate_result := { gen_response : option generate_response }.

(** ** Traces and oracles *)

(** Every call that leaves the process, with what came back. *)
Inductive event : Type :=
| ParseCall (source : js_string) (result : outcome value)
| VertexInit (opts : vertex_options) (failure : option js_error)
| ProcessCall (client : documentai_client) (params : process_params)
    (result : outcome process_result)
| GenerateCall (m : generative_model) (reqBody : generate_request)
    (result : outcome (option generate_result)).

(** The behaviour of everything outside [server.js].  [JSON.parse] is a
    function of its argument; the constructor and the two services may also
    answer by what has happened so far. *)
Record world := {
  JSON_parse : js_string -> outcome value;
  new_VertexAI : vertex_options -> option js_error;
  process_oracle :
    list event -> documentai_client -> process_params -> outcome process_result;
  generate_oracle :
    list event -> generative_model -> generate_request ->
    outcome (option generate_result)
}.

(** A computation reads the world, extends the trace (oldest event first)
    and returns or throws. *)
Definition M (A : Type) : Type := world -> list event -> outcome A * list event.

Definition ret {A} (a : A) : M A := fun _ tr => (Returns a, tr).

Definition throw {A} (e : js_error) : M A := fun _ tr => (Throws e, tr).

Definition bind {A B} (m : M A) (k : A -> M B) : M B :=
  fun w tr =>
    match m w tr with
    | (Returns a, tr') => k a w tr'
    | (Throws e, tr') => (Throws e, tr')
    end.

(** [try { m } catch (err) { h err }]. *)
Definition try_catch {A} (m : M A) (h : js_error -> M A) : M A :=
  fun w tr =>
    match m w tr with
    | (Returns a, tr') => (Returns a, tr')
    | (Throws e, tr') => h e w tr'
    end.

Definition of_outcome {A} (o : outcome A) : M A :=
  match o with
  | Returns a => ret a
  | Throws e => throw e
  end.

Definition parse (source : js_string) : M value :=
  fun w tr =>
    let r := JSON_parse w source in
    of_outcome r w (tr ++ [ParseCall source r]).

Definition construct_vertex (opts : vertex_options) : M vertex_options :=
  fun w tr =>
    let r := new_VertexAI w opts in
    (match r with None => Returns opts | Some e => Throws e end,
     tr ++ [VertexInit opts r]).

Definition process (client : documentai_client) (params : process_params)
  : M process_result :=
  fun w tr =>
    let r := process_oracle w tr client params in
    of_outcome r w (tr ++ [ProcessCall client params r]).

Definition generateContent (m : generative_model) (reqBody : generate_request)
  : M (option generate_result) :=
  fun w tr =>
    let r := generate_oracle w tr m reqBody in
    of_outcome r w (tr ++ [GenerateCall m reqBody r]).

(** [TypeError: Cannot read properties of undefined]. *)
Definition TypeError (msg : string) : js_error :=
  {| err_response := None; err_message := lit msg |}.

(** ** Reading a trace *)

Definition parse_sources (tr : list event) : list js_string :=
  flat_map (fun ev => match ev with ParseCall s _ => [s] | _ => [] end) tr.

Definition process_results (tr : list event) : list (outcome process_result) :=
  flat_map (fun ev => match ev with ProcessCall _ _ r => [r] | _ => [] end) tr.

Definition generate_results (tr : list event)
  : list (outcome (option generate_result)) :=
  flat_map (fun ev => match ev with GenerateCall _ _ r => [r] | _ => [] end) tr.

Definition generate_requests (tr : list event) : list generate_request :=
  flat_map (fun ev => match ev with GenerateCall _ b _ => [b] | _ => [] end) tr.

Definition generate_models (tr : list event) : list js_string :=
  flat_map (fun ev => match ev with GenerateCall m _ _ => [gm_model m] | _ => [] end) tr.

Definition returned {A} (o : outcome A) : Prop :=
  match o with Returns _ => True | Throws _ => False end.

End Cloud.
Import Cloud.

Declare Scope js_scope.
Notation "x <- m ;; k" := (bind m (fun x => k))
  (at level 61, m at next level, right associativity) : js_scope.
Open Scope js_scope.

(** [a?.f]: the property of [a], or [undefined] when [a] is [undefined]
    or [null]. *)
Definition chain {A B} (a : option A) (f : A -> option B) : option B :=
  match a with
  | Some x => f x
  | None => None
  end.
Notation "a ?. f" := (chain a f) (at level 40, left associativity) : js_scope.

(** One line of a template literal, with the line feed that ends it. *)
Definition line (s : string) : js_string := lit s ++ [LF].

(** The IEEE double of the literal [0.3]. *)
Definition double_0_3 : spec_float := S754_finite false 5404319552844595 (-54).

(** [err.response?.data || err.message]. *)
Definition diagnostic (err : js_error) : value :=
  js_or
    (match err_response err with
     | Some r => err_data r
     | None => VUndefined
     end)
    (VString (err_message err)).

(** [result.data.document?.text || '']. *)
Definition document_text (result : process_result) : js_string :=
  or_string (data_document (data result) ?. doc_text) [].

(** [r?.response?.candidates?.[0]?.content?.parts?.[0]?.text]. *)
Definition first_candidate_text (r : option generate_result) : option js_string :=
  r ?. gen_response ?. candidates ?. (fun cs => nth_error cs 0)
    ?. cand_content ?. parts ?. (fun ps => nth_error ps 0) ?. text.

(* ================================================================== *)
(** * [server.js]: credentials from the [GOOGLE_CREDENTIALS] blob       *)
(* ================================================================== *)

Module Server.

(** [process.env], the variables the module reads. *)
Record environment := {
  env_PROJECT_ID : option js_string;
  env_PROCESSOR_ID : option js_string;
  env_VERTEX_MODEL : option js_string;
  env_GOOGLE_CREDENTIALS : option js_string
}.

Definition LOCATION : js_string := lit "us".
Definition VERTEX_LOCATION : js_string := lit "us-central1".

(** [JSON.parse] applies [ToString] to its argument: an unset variable
    reads as the text [undefined]. *)
Definition to_string (x : option js_string) : js_string :=
  match x with
  | Some s => s
  | None => lit "undefined"
  end.

(** Lines 34-51.  The sanity check of line 45 only warns on the console. *)
Definition load_credentials (env : environment) : M value :=
  try_catch
    (credentials <-
       try_catch
         (parse (to_string (env_GOOGLE_CREDENTIALS env)))
         (fun err =>
            match env_GOOGLE_CREDENTIALS env with
            | None =>
                throw (TypeError "Cannot read properties of undefined (reading 'replace')")
            | Some blob =>
                let fixed := replace_escaped_newlines blob in
                parse fixed
            end) ;;
     ret credentials)
    (fun err => ret VNull).

(** The module-level bindings the handlers close over. *)
Record app := {
  PROJECT_ID : js_string;
  PROCESSOR_ID : js_string;
  VERTEX_MODEL : js_string;
  credentials : value;
  documentai : option documentai_client;
  model : option generative_model
}.

(** Lines 24-88: what requiring the module evaluates.  A throw here means
    the module does not load and no handler exists. *)
Definition load_module (env : environment) : M app :=
  let project := or_string (env_PROJECT_ID env) (lit "genai-471818") in
  let processor := or_string (env_PROCESSOR_ID env) (lit "54be1a4c93565429") in
  let vertex_model := or_string (env_VERTEX_MODEL env) (lit "gemini-2.5-flash-lite") in
  creds <- load_credentials env ;;
  let docAuth :=
    {| auth_credentials := js_or creds VUndefined;
       auth_projectId := project;
       auth_scopes := [lit "https://www.googleapis.com/auth/cloud-platform"] |} in
  let client := {| da_version := lit "v1"; da_auth := docAuth |} in
  vertexAI <-
    try_catch
      (let vertexOpts :=
         {| vo_project := project;
            vo_location := VERTEX_LOCATION;
            vo_googleAuthOptions := if to_boolean creds then Some creds else None |} in
       v <- construct_vertex vertexOpts ;;
       ret (Some v))
      (fun err => ret None) ;;
  gm <-
    match vertexAI with
    | None =>
        throw (TypeError "Cannot read properties of null (reading 'getGenerativeModel')")
    | Some v => ret {| gm_client := v; gm_model := lit "gemini-2.5-flash-lite" |}
    end ;;
  ret {| PROJECT_ID := project;
         PROCESSOR_ID := processor;
         VERTEX_MODEL := vertex_model;
         credentials := creds;
         documentai := Some client;
         model := Some gm |}.

(** [GET /api/ping]. *)
Definition ping (a : app) : response :=
  res_json
    [ ("status", VString (lit "ok"));
      ("project", VString (PROJECT_ID a));
      ("vertexModel", VString (VERTEX_MODEL a)) ]%string.

(** The request body [makeRequest] builds around its prompt. *)
Definition reqBody (promptText : js_string) : generate_request :=
  {| contents :=
       [ {| role := Some (lit "user");
            parts := Some [ {| text := Some promptText |} ] |} ];
     temperature := double_0_3;
     maxOutputTokens := 300 |}.

Definition makeRequest (gm : generative_model) (promptText : js_string)
  : M (option generate_result) :=
  r <- generateContent gm (reqBody promptText) ;;
  ret r.

Definition summaryPrompt (text : js_string) : js_string :=
  line "Summarize the following legal document:" ++ line "" ++ text.

Definition keyTermsPrompt (text : js_string) : js_string :=
  line "Extract key terms and their values in concise bullet points:"
  ++ line "" ++ text.

Definition riskPrompt (text : js_string) : js_string :=
  line "You are a legal risk analysis expert."
  ++ line ""
  ++ line "Analyze the following legal document and generate a clear risk assessment."
  ++ line ""
  ++ line "Follow this EXACT structured format:"
  ++ line ""
  ++ line "- Risk Item: <short title>"
  ++ line "  Description: <what could go wrong>"
  ++ line "  Severity: Low/Medium/High"
  ++ line ""
  ++ line "Example:"
  ++ line "- Risk Item: Ambiguous Payment Terms"
  ++ line "  Description: Payment due dates are unclear, which may cause disputes between parties."
  ++ line "  Severity: Medium"
  ++ line ""
  ++ line "Now analyze this document:"
  ++ line ""
  ++ text.

(** Lines 148-194: the three generation calls and the final answer. *)
Definition analyze (gm : generative_model) (text : js_string) : M response :=
  try_catch
    (summaryResult <- makeRequest gm (summaryPrompt text) ;;
     let summary :=
       or_string (first_candidate_text summaryResult) (lit "Summary not generated") in
     keyTermsResult <- makeRequest gm (keyTermsPrompt text) ;;
     let keyTerms :=
       or_string (first_candidate_text keyTermsResult) (lit "Key terms not extracted") in
     riskAssessmentResult <- makeRequest gm (riskPrompt text) ;;
     let riskAssessment :=
       or_string (first_candidate_text riskAssessmentResult)
         (lit "Risk assessment not generated") in
     ret (res_json
            [ ("text", VString text);
              ("summary", VString summary);
              ("keyTerms", VString keyTerms);
              ("riskAssessment", VString riskAssessment) ]%string))
    (fun vertexErr =>
       ret (res_status_json 500
              [ ("error", VString (lit "Vertex AI generation failed"));
                ("detail", diagnostic vertexErr) ]%string)).

(** [POST /api/upload], lines 96-199. *)
Definition upload (a : app) (req : request) : M response :=
  try_catch
    (match file req with
     | None =>
         ret (res_status_json 400
                [ ("error", VString (lit "No file uploaded")) ]%string)
     | Some f =>
     if negb (to_boolean (credentials a)) then
       ret (res_status_json 500
              [ ("error", VString (lit "Server misconfigured: missing credentials")) ]%string)
     else
     match documentai a with
     | None =>
         ret (res_status_json 500
                [ ("error", VString (lit "DocumentAI client not initialized")) ]%string)
     | Some client =>
     match model a with
     | None =>
         ret (res_status_json 500
                [ ("error", VString (lit "Vertex AI not initialized")) ]%string)
     | Some gm =>
         let fileBuffer := buffer f in
         let encodedFile := base64 fileBuffer in
         let name :=
           lit "projects/" ++ PROJECT_ID a ++ lit "/locations/" ++ LOCATION
           ++ lit "/processors/" ++ PROCESSOR_ID a in
         step <-
           try_catch
             (result <-
                process client
                  {| name := name;
                     requestBody :=
                       {| rawDocument :=
                            {| content := encodedFile; mimeType := mimetype f |} |} |} ;;
              ret (inr result))
             (fun docErr =>
                ret (inl (res_status_json 500
                            [ ("error", VString (lit "Document AI processing failed"));
                              ("detail", diagnostic docErr) ]%string))) ;;
         match step with
         | inl sent => ret sent
         | inr result =>
             let text := document_text result in
             if negb (to_boolean (VString (trim text))) then
               ret (res_status_json 400
                      [ ("error", VString (lit "Document contained no extractable text.")) ]%string)
             else analyze gm text
         end
     end end
     end)
    (fun error =>
       ret (res_status_json 500
              [ ("error", VString (lit "Failed to analyze document")) ]%string)).

(** What one request is answered with, and the remote calls it makes. *)
Definition reply (a : app) (req : request) (w : world) : outcome response :=
  fst (upload a req w []).

Definition calls (a : app) (req : request) (w : world) : list event :=
  snd (upload a req w []).

(** [process]'s argument for an uploaded file. *)
Definition process_params_of (a : app) (f : uploaded_file) : process_params :=
  {| name :=
       lit "projects/" ++ PROJECT_ID a ++ lit "/locations/" ++ LOCATION
       ++ lit "/processors/" ++ PROCESSOR_ID a;
     requestBody :=
       {| rawDocument :=
            {| content := base64 (buffer f); mimeType := mimetype f |} |} |}.

(** The three call sites of [makeRequest], with the response field each
    one fills and the placeholder it falls back to. *)
Inductive call_site : Type := Summary | KeyTerms | Risk.

Definition site_index (c : call_site) : nat :=
  match c with Summary => 0 | KeyTerms => 1 | Risk => 2 end.

Definition site_field (c : call_site) : string :=
  match c with
  | Summary => "summary"
  | KeyTerms => "keyTerms"
  | Risk => "riskAssessment"
  end.

Definition site_placeholder (c : call_site) : js_string :=
  match c with
  | Summary => lit "Summary not generated"
  | KeyTerms => lit "Key terms not extracted"
  | Risk => lit "Risk assessment not generated"
  end.

Definition site_prompt (c : call_site) (text : js_string) : js_string :=
  match c with
  | Summary => summaryPrompt text
  | KeyTerms => keyTermsPrompt text
  | Risk => riskPrompt text
  end.

(** The format the risk prompt asks for. *)
Definition risk_format : js_string :=
  line "- Risk Item: <short title>"
  ++ line "  Description: <what could go wrong>"
  ++ lit "  Severity: Low/Medium/High".

Definition with_VERTEX_MODEL (env : environment) (v : option js_string)
  : environment :=
  {| env_PROJECT_ID := env_PROJECT_ID env;
     env_PROCESSOR_ID := env_PROCESSOR_ID env;
     env_VERTEX_MODEL := v;
     env_GOOGLE_CREDENTIALS := env_GOOGLE_CREDENTIALS env |}.

End Server.

(* ================================================================== *)
(** * The second copy: credentials from discrete environment variables  *)
(* ================================================================== *)

(** The second copy of the server reads [client_email], [private_key] and
    [private_key_id] from the environment, has no validation block and no
    inner [try]: one [catch] answers every failure.  (The third copy differs
    from it by a key file on disk, a temporary upload file and the wording of
    the prompts.) *)
Module ServerEnvKeys.

Record environment := {
  env_client_email : option js_string;
  env_private_key : option js_string;
  env_private_key_id : option js_string
}.

Definition PROJECT_ID : js_string := lit "genai-471818".
Definition LOCATION : js_string := lit "us".
Definition PROCESSOR_ID : js_string := lit "54be1a4c93565429".

Record app := {
  documentai : documentai_client;
  model : generative_model
}.

Definition string_or_undefined (x : option js_string) : value :=
  match x with
  | Some s => VString s
  | None => VUndefined
  end.

Definition load_module (env : environment) : M app :=
  private_key <-
    match env_private_key env with
    | None =>
        throw (TypeError "Cannot read properties of undefined (reading 'replace')")
    | Some k => ret (replace_escaped_newlines k)
    end ;;
  let client :=
    {| auth_credentials :=
         VObject
           [ ("client_email", string_or_undefined (env_client_email env));
             ("private_key", VString private_key);
             ("private_key_id", string_or_undefined (env_private_key_id env));
             ("project_id", VString PROJECT_ID) ]%string;
       auth_projectId := PROJECT_ID;
       auth_scopes := [lit "https://www.googleapis.com/auth/cloud-platform"] |} in
  let docai := {| da_version := lit "v1"; da_auth := client |} in
  vertexAI <-
    construct_vertex
      {| vo_project := PROJECT_ID;
         vo_location := lit "us-central1";
         vo_googleAuthOptions := None |} ;;
  ret {| documentai := docai;
         model := {| gm_client := vertexAI; gm_model := lit "gemini-2.5-flash-lite" |} |}.

Definition user_request (promptText : js_string) : generate_request :=
  {| contents :=
       [ {| role := Some (lit "user");
            parts := Some [ {| text := Some promptText |} ] |} ];
     temperature := double_0_3;
     maxOutputTokens := 300 |}.

(** [r.response?.candidates?.[0]?.content?.parts?.[0]?.text]: no [?.]
    after [r] itself. *)
Definition response_text (r : option generate_result) : M (option js_string) :=
  match r with
  | None => throw (TypeError "Cannot read properties of undefined (reading 'response')")
  | Some _ => ret (first_candidate_text r)
  end.

Definition summaryPrompt (text : js_string) : js_string :=
  line "Summarize the following legal document:" ++ line "" ++ text.

Definition keyTermsPrompt (text : js_string) : js_string :=
  line "Extract key terms and their values in bullet points:" ++ line "" ++ text.

Definition riskPrompt (text : js_string) : js_string :=
  line "Provide a risk assessment in this format:"
  ++ line "- Risk Item: Description (Severity: Low/Medium/High)"
  ++ line ""
  ++ line "For this legal document:"
  ++ line ""
  ++ text.

(** [POST /api/upload] of the second copy. *)
Definition upload (a : app) (req : request) : M response :=
  try_catch
    (f <-
       match file req with
       | None =>
           throw (TypeError "Cannot read properties of undefined (reading 'buffer')")
       | Some f => ret f
       end ;;
     let fileData := buffer f in
     let encodedFile := base64 fileData in
     let name :=
       lit "projects/" ++ PROJECT_ID ++ lit "/locations/" ++ LOCATION
       ++ lit "/processors/" ++ PROCESSOR_ID in
     result <-
       process (documentai a)
         {| name := name;
            requestBody :=
              {| rawDocument :=
                   {| content := encodedFile; mimeType := mimetype f |} |} |} ;;
     let text := document_text result in
     if negb (to_boolean (VString (trim text))) then
       ret (res_status_json 400
              [ ("error", VString (lit "Document contained no extractable text.")) ]%string)
     else
       summaryResult <- generateContent (model a) (user_request (summaryPrompt text)) ;;
       summaryText <- response_text summaryResult ;;
       let summary := or_string summaryText (lit "Summary not generated") in
       keyTermsResult <- generateContent (model a) (user_request (keyTermsPrompt text)) ;;
       keyTermsText <- response_text keyTermsResult ;;
       let keyTerms := or_string keyTermsText (lit "Key terms not extracted") in
       riskAssessmentResult <-
         generateContent (model a) (user_request (riskPrompt text)) ;;
       riskText <- response_text riskAssessmentResult ;;
       let riskAssessment := or_string riskText (lit "Risk assessment not generated") in
       ret (res_json
              [ ("text", VString text);
                ("summary", VString summary);
                ("keyTerms", VString keyTerms);
                ("riskAssessment", VString riskAssessment) ]%string))
    (fun error =>
       ret (res_status_json 500
              [ ("error", VString (lit "Failed to analyze document")) ]%string)).

End ServerEnvKeys.

(* ================================================================== *)
(** * Concrete environments, requests and remote behaviours             *)
(* ================================================================== *)

Module Samples.

Definition DQUOTE : N := 34.

Definition quoted (s : string) : js_string := [DQUOTE] ++ lit s ++ [DQUOTE].

Definition key_members : js_string :=
  quoted "client_email" ++ lit ":" ++ quoted "svc@genai-471818.iam.gserviceaccount.com"
  ++ lit "," ++ quoted "private_key" ++ lit ":" ++ quoted "KEY" ++ lit "}".

(** A service-account document, as one line. *)
Definition key_blob : js_string := lit "{" ++ key_members.

(** The same document after a shell turned the line feed that followed
    the brace into the two characters backslash, [n]. *)
Definition mangled_blob : js_string := lit "{\n" ++ key_members.

Definition key_object : value :=
  VObject
    [ ("client_email", VString (lit "svc@genai-471818.iam.gserviceaccount.com"));
      ("private_key", VString (lit "KEY")) ]%string.

Definition SyntaxError : js_error :=
  {| err_response := None; err_message := lit "Unexpected token in JSON" |}.

(** [JSON.parse] on the documents used here: the key document, with or
    without the line feed after its brace, and [null]; every other text
    used here is not JSON. *)
Definition stub_JSON_parse (s : js_string) : outcome value :=
  if js_string_eqb s key_blob || js_string_eqb s (lit "{" ++ [LF] ++ key_members)
  then Returns key_object
  else if js_string_eqb s (lit "null") then Returns VNull
  else Throws SyntaxError.

(** A world that answers the extraction call with [extraction] and the
    n-th generation call with the n-th entry of [generations]. *)
Definition scripted (extraction : outcome process_result)
    (generations : list (outcome (option generate_result))) : world :=
  {| JSON_parse := stub_JSON_parse;
     new_VertexAI := fun _ => None;
     process_oracle := fun _ _ _ => extraction;
     generate_oracle := fun tr _ _ =>
       nth (List.length (generate_results tr)) generations
         (Throws {| err_response := None; err_message := lit "quota exceeded" |}) |}.

Definition env_with (blob : option js_string) : Server.environment :=
  {| Server.env_PROJECT_ID := None;
     Server.env_PROCESSOR_ID := None;
     Server.env_VERTEX_MODEL := None;
     Server.env_GOOGLE_CREDENTIALS := blob |}.

Definition pdf_request : request :=
  {| file :=
       Some {| originalname := lit "lease.pdf";
               mimetype := lit "application/pdf";
               size := 4;
               buffer := [37; 80; 68; 70]%N |} |}.

Definition empty_request : request := {| file := None |}.

Definition extracted (text : js_string) : outcome process_result :=
  Returns {| data := {| data_document := Some {| doc_text := Some text |} |} |}.

Definition lease_text : js_string := lit "Tenant shall pay rent by the 1st.".

Definition generated (text : js_string) : outcome (option generate_result) :=
  Returns
    (Some {| gen_response :=
               Some {| candidates :=
                         Some [ {| cand_content :=
                                     Some {| role := Some (lit "model");
                                             parts := Some [ {| text := Some text |} ] |} |} ] |} |}).

Definition no_candidates : outcome (option generate_result) :=
  Returns (Some {| gen_response := Some {| candidates := None |} |}).

Definition socket_hang_up : js_error :=
  {| err_response := None; err_message := lit "socket hang up" |}.

Definition permission_denied : js_error :=
  {| err_response :=
       Some {| err_data := VObject [ ("code", VString (lit "403")) ]%string |};
     err_message := lit "Request failed with status code 403" |}.

(** The module as it loads from the key document. *)
Definition loaded_app : Server.app :=
  let creds := key_object in
  let vopts :=
    {| vo_project := lit "genai-471818";
       vo_location := lit "us-central1";
       vo_googleAuthOptions := Some creds |} in
  {| Server.PROJECT_ID := lit "genai-471818";
     Server.PROCESSOR_ID := lit "54be1a4c93565429";
     Server.VERTEX_MODEL := lit "gemini-2.5-flash-lite";
     Server.credentials := creds;
     Server.documentai :=
       Some {| da_version := lit "v1";
               da_auth :=
                 {| auth_credentials := creds;
                    auth_projectId := lit "genai-471818";
                    auth_scopes := [lit "https://www.googleapis.com/auth/cloud-platform"] |} |};
     Server.model :=
       Some {| gm_client := vopts; gm_model := lit "gemini-2.5-flash-lite" |} |}.

(** The module as it loads when [GOOGLE_CREDENTIALS] is not JSON. *)
Definition unconfigured_app : Server.app :=
  {| Server.PROJECT_ID := lit "genai-471818";
     Server.PROCESSOR_ID := lit "54be1a4c93565429";
     Server.VERTEX_MODEL := lit "gemini-2.5-flash-lite";
     Server.credentials := VNull;
     Server.documentai :=
       Some {| da_version := lit "v1";
               da_auth :=
                 {| auth_credentials := VUndefined;
                    auth_projectId := lit "genai-471818";
                    auth_scopes := [lit "https://www.googleapis.com/auth/cloud-platform"] |} |};
     Server.model :=
       Some {| gm_client :=
                 {| vo_project := lit "genai-471818";
                    vo_location := lit "us-central1";
                    vo_googleAuthOptions := None |};
               gm_model := lit "gemini-2.5-flash-lite" |} |}.

(** The second copy of the module, loaded. *)
Definition second_copy_app : ServerEnvKeys.app :=
  {| ServerEnvKeys.documentai :=
       {| da_version := lit "v1";
          da_auth :=
            {| auth_credentials :=
                 VObject
                   [ ("client_email", VString (lit "svc@genai-471818.iam.gserviceaccount.com"));
                     ("private_key", VString (lit "KEY"));
                     ("private_key_id", VUndefined);
                     ("project_id", VString (lit "genai-471818")) ]%string;
               auth_projectId := lit "genai-471818";
               auth_scopes := [lit "https://www.googleapis.com/auth/cloud-platform"] |} |};
     ServerEnvKeys.model :=
       {| gm_client :=
            {| vo_project := lit "genai-471818";
               vo_location := lit "us-central1";
               vo_googleAuthOptions := None |};
          gm_model := lit "gemini-2.5-flash-lite" |} |}.

(** A world in which every extraction and generation call succeeds. *)
Definition healthy : world :=
  scripted (extracted lease_text)
    [ generated (lit "Rent is due monthly.");
      generated (lit "- Rent: due on the 1st");
      generated (lit "- Risk Item: Late payment") ].

End Samples.

(* ================================================================== *)
(** * The ways a request can go                                         *)
(* ================================================================== *)

(** The answers [upload] sends, as the client reads them. *)
Definition error_reply (code : N) (msg : string) : response :=
  {| status := code; body := [ ("error", VString (lit msg)) ]%string |}.

Definition detailed_error_reply (msg : string) (e : js_error) : response :=
  {| status := 500;
     body :=
       [ ("error", VString (lit msg));
         ("detail", to_json (diagnostic e)) ]%string |}.

Definition analysis_reply (text summary keyTerms riskAssessment : js_string)
  : response :=
  {| status := 200;
     body :=
       [ ("text", VString text);
         ("summary", VString summary);
         ("keyTerms", VString keyTerms);
         ("riskAssessment", VString riskAssessment) ]%string |}.

Section UploadPaths.

Import Server.

Variable w : world.
Variable a : app.
Variable client : documentai_client.
Variable gm : generative_model.
Variable req : request.

(** The request reached the generation stage with text [document_text r]. *)
Definition extracted_text (f : uploaded_file) (r : process_result) : Prop :=
  file req = Some f /\
  to_boolean (credentials a) = true /\
  process_oracle w [] client (process_params_of a f) = Returns r /\
  trim (document_text r) <> [].

Definition extraction (f : uploaded_file) (r : outcome process_result) : event :=
  ProcessCall client (process_params_of a f) r.

Definition generation (c : call_site) (text : js_string)
    (r : outcome (option generate_result)) : event :=
  GenerateCall gm (reqBody (site_prompt c text)) r.

Definition generated_field (c : call_site) (r : option generate_result)
  : js_string :=
  or_string (first_candidate_text r) (site_placeholder c).

(** Each constructor is one path through the handler: the answer sent and
    the remote calls made, in order. *)
Inductive upload_path : response -> list event -> Prop :=
| path_no_file :
    file req = None ->
    upload_path (error_reply 400 "No file uploaded") []
| path_no_credentials f :
    file req = Some f ->
    to_boolean (credentials a) = false ->
    upload_path (error_reply 500 "Server misconfigured: missing credentials") []
| path_extraction_failed f e :
    file req = Some f ->
    to_boolean (credentials a) = true ->
    process_oracle w [] client (process_params_of a f) = Throws e ->
    upload_path (detailed_error_reply "Document AI processing failed" e)
      [extraction f (Throws e)]
| path_no_text f r :
    file req = Some f ->
    to_boolean (credentials a) = true ->
    process_oracle w [] client (process_params_of a f) = Returns r ->
    trim (document_text r) = [] ->
    upload_path (error_reply 400 "Document contained no extractable text.")
      [extraction f (Returns r)]
| path_summary_failed f r e :
    extracted_text f r ->
    let text := document_text r in
    generate_oracle w [extraction f (Returns r)] gm
      (reqBody (summaryPrompt text)) = Throws e ->
    upload_path (detailed_error_reply "Vertex AI generation failed" e)
      [extraction f (Returns r); generation Summary text (Throws e)]
| path_keyTerms_failed f r r1 e :
    extracted_text f r ->
    let text := document_text r in
    generate_oracle w [extraction f (Returns r)] gm
      (reqBody (summaryPrompt text)) = Returns r1 ->
    generate_oracle w
      [extraction f (Returns r); generation Summary text (Returns r1)] gm
      (reqBody (keyTermsPrompt text)) = Throws e ->
    upload_path (detailed_error_reply "Vertex AI generation failed" e)
      [extraction f (Returns r); generation Summary text (Returns r1);
       generation KeyTerms text (Throws e)]
| path_risk_failed f r r1 r2 e :
    extracted_text f r ->
    let text := document_text r in
    generate_oracle w [extraction f (Returns r)] gm
      (reqBody (summaryPrompt text)) = Returns r1 ->
    generate_oracle w
      [extraction f (Returns r); generation Summary text (Returns r1)] gm
      (reqBody (keyTermsPrompt text)) = Returns r2 ->
    generate_oracle w
      [extraction f (Returns r); generation Summary text (Returns r1);
       generation KeyTerms text (Returns r2)] gm
      (reqBody (riskPrompt text)) = Throws e ->
    upload_path (detailed_error_reply "Vertex AI generation failed" e)
      [extraction f (Returns r); generation Summary text (Returns r1);
       generation KeyTerms text (Returns r2); generation Risk text (Throws e)]
| path_answered f r r1 r2 r3 :
    extracted_text f r ->
    let text := document_text r in
    generate_oracle w [extraction f (Returns r)] gm
      (reqBody (summaryPrompt text)) = Returns r1 ->
    generate_oracle w
      [extraction f (Returns r); generation Summary text (Returns r1)] gm
      (reqBody (keyTermsPrompt text)) = Returns r2 ->
    generate_oracle w
      [extraction f (Returns r); generation Summary text (Returns r1);
       generation KeyTerms text (Returns r2)] gm
      (reqBody (riskPrompt text)) = Returns r3 ->
    upload_path
      (analysis_reply text (generated_field Summary r1)
         (generated_field KeyTerms r2) (generated_field Risk r3))
      [extraction f (Returns r); generation Summary text (Returns r1);
       generation KeyTerms text (Returns r2); generation Risk text (Returns r3)].

End UploadPaths.

(* ================================================================== *)
(** * The ways a request can go in the second copy                      *)
(* ================================================================== *)

Definition second_copy_reply (a : ServerEnvKeys.app) (req : request) (w : world)
  : outcome response :=
  fst (ServerEnvKeys.upload a req w []).

Definition second_copy_calls (a : ServerEnvKeys.app) (req : request) (w : world)
  : list event :=
  snd (ServerEnvKeys.upload a req w []).

(** A generation call the second and third copies cannot use: it threw,
    or it returned [undefined] or [null], on which [.response] throws. *)
Definition unusable (o : outcome (option generate_result)) : Prop :=
  match o with
  | Returns (Some _) => False
  | Returns None | Throws _ => True
  end.

Section SecondCopyPaths.

Variable w : world.
Variable a : ServerEnvKeys.app.
Variable req : request.

Definition second_copy_params (f : uploaded_file) : process_params :=
  {| name :=
       lit "projects/" ++ ServerEnvKeys.PROJECT_ID ++ lit "/locations/"
       ++ ServerEnvKeys.LOCATION ++ lit "/processors/" ++ ServerEnvKeys.PROCESSOR_ID;
     requestBody :=
       {| rawDocument :=
            {| content := base64 (buffer f); mimeType := mimetype f |} |} |}.

Definition extraction2 (f : uploaded_file) (r : outcome process_result) : event :=
  ProcessCall (ServerEnvKeys.documentai a) (second_copy_params f) r.

Definition summary2 (text : js_string) (o : outcome (option generate_result))
  : event :=
  GenerateCall (ServerEnvKeys.model a)
    (ServerEnvKeys.user_request (ServerEnvKeys.summaryPrompt text)) o.

Definition keyTerms2 (text : js_string) (o : outcome (option generate_result))
  : event :=
  GenerateCall (ServerEnvKeys.model a)
    (ServerEnvKeys.user_request (ServerEnvKeys.keyTermsPrompt text)) o.

Definition risk2 (text : js_string) (o : outcome (option generate_result))
  : event :=
  GenerateCall (ServerEnvKeys.model a)
    (ServerEnvKeys.user_request (ServerEnvKeys.riskPrompt text)) o.

Definition generic_failure : response :=
  error_reply 500 "Failed to analyze document".

Definition extracted_text2 (f : uploaded_file) (r : process_result) : Prop :=
  file req = Some f /\
  process_oracle w [] (ServerEnvKeys.documentai a) (second_copy_params f)
    = Returns r /\
  trim (document_text r) <> [].

Inductive second_copy_path : response -> list event -> Prop :=
| path2_no_file :
    file req = None ->
    second_copy_path generic_failure []
| path2_extraction_failed f e :
    file req = Some f ->
    process_oracle w [] (ServerEnvKeys.documentai a) (second_copy_params f)
      = Throws e ->
    second_copy_path generic_failure [extraction2 f (Throws e)]
| path2_no_text f r :
    file req = Some f ->
    process_oracle w [] (ServerEnvKeys.documentai a) (second_copy_params f)
      = Returns r ->
    trim (document_text r) = [] ->
    second_copy_path
      (error_reply 400 "Document contained no extractable text.")
      [extraction2 f (Returns r)]
| path2_summary_unusable f r o :
    extracted_text2 f r ->
    let text := document_text r in
    generate_oracle w [extraction2 f (Returns r)] (ServerEnvKeys.model a)
      (ServerEnvKeys.user_request (ServerEnvKeys.summaryPrompt text)) = o ->
    unusable o ->
    second_copy_path generic_failure [extraction2 f (Returns r); summary2 text o]
| path2_keyTerms_unusable f r r1 o :
    extracted_text2 f r ->
    let text := document_text r in
    generate_oracle w [extraction2 f (Returns r)] (ServerEnvKeys.model a)
      (ServerEnvKeys.user_request (ServerEnvKeys.summaryPrompt text))
      = Returns (Some r1) ->
    generate_oracle w
      [extraction2 f (Returns r); summary2 text (Returns (Some r1))]
      (ServerEnvKeys.model a)
      (ServerEnvKeys.user_request (ServerEnvKeys.keyTermsPrompt text)) = o ->
    unusable o ->
    second_copy_path generic_failure
      [extraction2 f (Returns r); summary2 text (Returns (Some r1));
       keyTerms2 text o]
| path2_risk_unusable f r r1 r2 o :
    extracted_text2 f r ->
    let text := document_text r in
    generate_oracle w [extraction2 f (Returns r)] (ServerEnvKeys.model a)
      (ServerEnvKeys.user_request (ServerEnvKeys.summaryPrompt text))
      = Returns (Some r1) ->
    generate_oracle w
      [extraction2 f (Returns r); summary2 text (Returns (Some r1))]
      (ServerEnvKeys.model a)
      (ServerEnvKeys.user_request (ServerEnvKeys.keyTermsPrompt text))
      = Returns (Some r2) ->
    generate_oracle w
      [extraction2 f (Returns r); summary2 text (Returns (Some r1));
       keyTerms2 text (Returns (Some r2))]
      (ServerEnvKeys.model a)
      (ServerEnvKeys.user_request (ServerEnvKeys.riskPrompt text)) = o ->
    unusable o ->
    second_copy_path generic_failure
      [extraction2 f (Returns r); summary2 text (Returns (Some r1));
       keyTerms2 text (Returns (Some r2)); risk2 text o]
| path2_answered f r r1 r2 r3 :
    extracted_text2 f r ->
    let text := document_text r in
    generate_oracle w [extraction2 f (Returns r)] (ServerEnvKeys.model a)
      (ServerEnvKeys.user_request (ServerEnvKeys.summaryPrompt text))
      = Returns (Some r1) ->
    generate_oracle w
      [extraction2 f (Returns r); summary2 text (Returns (Some r1))]
      (ServerEnvKeys.model a)
      (ServerEnvKeys.user_request (ServerEnvKeys.keyTermsPrompt text))
      = Returns (Some r2) ->
    generate_oracle w
      [extraction2 f (Returns r); summary2 text (Returns (Some r1));
       keyTerms2 text (Returns (Some r2))]
      (ServerEnvKeys.model a)
      (ServerEnvKeys.user_request (ServerEnvKeys.riskPrompt text))
      = Returns (Some r3) ->
    second_copy_path
      (analysis_reply text
         (or_string (first_candidate_text (Some r1)) (lit "Summary not generated"))
         (or_string (first_candidate_text (Some r2)) (lit "Key terms not extracted"))
         (or_string (first_candidate_text (Some r3))
            (lit "Risk assessment not generated")))
      [extraction2 f (Returns r); summary2 text (Returns (Some r1));
       keyTerms2 text (Returns (Some r2)); risk2 text (Returns (Some r3))].

End SecondCopyPaths.

(* ================================================================== *)
(** * The third copy: a key file, uploads on disk                       *)
(* ================================================================== *)

(** The third copy lets multer write the upload under [uploads/], reads
    it back with [fs.readFileSync], and removes it with [fs.unlinkSync] once
    the extraction has answered.  Its handler is the second copy's
    otherwise, with prompts of its own; [PROJECT_ID] and [PROCESSOR_ID] come
    from the environment without a default. *)
Module ServerKeyFile.

(** [req.file] as multer's disk storage fills it in. *)
Record stored_file := {
  originalname : js_string;
  mimetype : js_string;
  size : N;
  path : js_string
}.

Record request := { file : option stored_file }.

(** The calls of the handler: the file system, and the remote services. *)
Inductive fs_event : Type :=
| ReadFile (p : js_string) (result : outcome (list N))
| Unlink (p : js_string) (failure : option js_error)
| Remote (ev : event).

Definition remote_events (tr : list fs_event) : list event :=
  flat_map (fun ev => match ev with Remote e => [e] | _ => [] end) tr.

Definition unlink_attempts (tr : list fs_event) : list js_string :=
  flat_map (fun ev => match ev with Unlink p _ => [p] | _ => [] end) tr.

Definition files_read (tr : list fs_event) : list js_string :=
  flat_map (fun ev => match ev with ReadFile p _ => [p] | _ => [] end) tr.

(** The remote services see the remote calls made so far. *)
Record fs_world := {
  cloud : world;
  readFileSync_oracle : list fs_event -> js_string -> outcome (list N);
  unlinkSync_oracle : list fs_event -> js_string -> option js_error
}.

Definition F (A : Type) : Type :=
  fs_world -> list fs_event -> outcome A * list fs_event.

Definition fret {A} (a : A) : F A := fun _ tr => (Returns a, tr).

Definition fthrow {A} (e : js_error) : F A := fun _ tr => (Throws e, tr).

Definition fbind {A B} (m : F A) (k : A -> F B) : F B :=
  fun w tr =>
    match m w tr with
    | (Returns a, tr') => k a w tr'
    | (Throws e, tr') => (Throws e, tr')
    end.

Definition ftry_catch {A} (m : F A) (h : js_error -> F A) : F A :=
  fun w tr =>
    match m w tr with
    | (Returns a, tr') => (Returns a, tr')
    | (Throws e, tr') => h e w tr'
    end.

Declare Scope fs_scope.
Notation "x <- m ;; k" := (fbind m (fun x => k))
  (at level 61, m at next level, right associativity) : fs_scope.
Local Open Scope fs_scope.

Definition readFileSync (p : js_string) : F (list N) :=
  fun w tr =>
    let r := readFileSync_oracle w tr p in
    (r, tr ++ [ReadFile p r]).

Definition unlinkSync (p : js_string) : F unit :=
  fun w tr =>
    let r := unlinkSync_oracle w tr p in
    (match r with None => Returns tt | Some e => Throws e end,
     tr ++ [Unlink p r]).

Definition process (client : documentai_client) (params : process_params)
  : F process_result :=
  fun w tr =>
    let r := process_oracle (cloud w) (remote_events tr) client params in
    (r, tr ++ [Remote (ProcessCall client params r)]).

Definition generateContent (m : generative_model) (reqBody : generate_request)
  : F (option generate_result) :=
  fun w tr =>
    let r := generate_oracle (cloud w) (remote_events tr) m reqBody in
    (r, tr ++ [Remote (GenerateCall m reqBody r)]).

(** The module bindings of the handler.  The two identifiers are read from
    the environment as they are. *)
Record app := {
  PROJECT_ID : option js_string;
  PROCESSOR_ID : option js_string;
  documentai : documentai_client;
  model : generative_model
}.

Definition LOCATION : js_string := lit "us".

(** [${x}] in a template literal. *)
Definition interpolate (x : option js_string) : js_string :=
  match x with
  | Some s => s
  | None => lit "undefined"
  end.

Definition user_request (promptText : js_string) : generate_request :=
  {| contents :=
       [ {| role := Some (lit "user");
            parts := Some [ {| text := Some promptText |} ] |} ];
     temperature := double_0_3;
     maxOutputTokens := 300 |}.

Definition response_text (r : option generate_result) : F (option js_string) :=
  match r with
  | None => fthrow (TypeError "Cannot read properties of undefined (reading 'response')")
  | Some _ => fret (first_candidate_text r)
  end.

Definition summaryPrompt (text : js_string) : js_string :=
  line "Summarize the following legal document :" ++ line "" ++ text.

Definition keyTermsPrompt (text : js_string) : js_string :=
  line "Extract key terms and their values from the following legal document in a concise bullet-point format:"
  ++ line "" ++ text.

Definition riskPrompt (text : js_string) : js_string :=
  line "Provide a risk assessment in the following format:"
  ++ line "- Risk Item: Description (Severity: Low/Medium/High)"
  ++ line ""
  ++ line "For this legal document:"
  ++ line ""
  ++ text.

(** [POST /api/upload] of the third copy, lines 377-454. *)
Definition upload (a : app) (req : request) : F response :=
  ftry_catch
    (f <-
       match file req with
       | None =>
           fthrow (TypeError "Cannot read properties of undefined (reading 'path')")
       | Some f => fret f
       end ;;
     let filePath := path f in
     fileData <- readFileSync filePath ;;
     let encodedFile := base64 fileData in
     let name :=
       lit "projects/" ++ interpolate (PROJECT_ID a) ++ lit "/locations/"
       ++ LOCATION ++ lit "/processors/" ++ interpolate (PROCESSOR_ID a) in
     result <-
       process (documentai a)
         {| name := name;
            requestBody :=
              {| rawDocument :=
                   {| content := encodedFile; mimeType := mimetype f |} |} |} ;;
     let text := document_text result in
     _ <- unlinkSync filePath ;;
     if negb (to_boolean (VString (trim text))) then
       fret (res_status_json 400
               [ ("error", VString (lit "Document contained no extractable text.")) ]%string)
     else
       summaryResult <- generateContent (model a) (user_request (summaryPrompt text)) ;;
       summaryText <- response_text summaryResult ;;
       let summary := or_string summaryText (lit "Summary not generated") in
       keyTermsResult <- generateContent (model a) (user_request (keyTermsPrompt text)) ;;
       keyTermsText <- response_text keyTermsResult ;;
       let keyTerms := or_string keyTermsText (lit "Key terms not extracted") in
       riskAssessmentResult <-
         generateContent (model a) (user_request (riskPrompt text)) ;;
       riskText <- response_text riskAssessmentResult ;;
       let riskAssessment := or_string riskText (lit "Risk assessment not generated") in
       fret (res_json
               [ ("text", VString text);
                 ("summary", VString summary);
                 ("keyTerms", VString keyTerms);
                 ("riskAssessment", VString riskAssessment) ]%string))
    (fun error =>
       fret (res_status_json 500
               [ ("error", VString (lit "Failed to analyze document")) ]%string)).

Definition reply (a : app) (req : request) (w : fs_world) : outcome response :=
  fst (upload a req w []).

Definition calls (a : app) (req : request) (w : fs_world) : list fs_event :=
  snd (upload a req w []).

(** [process]'s argument for the bytes read from the upload. *)
Definition process_params_of (a : app) (f : stored_file) (bytes : list N)
  : process_params :=
  {| name :=
       lit "projects/" ++ interpolate (PROJECT_ID a) ++ lit "/locations/"
       ++ LOCATION ++ lit "/processors/" ++ interpolate (PROCESSOR_ID a);
     requestBody :=
       {| rawDocument :=
            {| content := base64 bytes; mimeType := mimetype f |} |} |}.

(** A file system and remote services that answer from a script. *)
Definition scripted_fs (read : outcome (list N)) (unlink : option js_error)
    (w : world) : fs_world :=
  {| cloud := w;
     readFileSync_oracle := fun _ _ => read;
     unlinkSync_oracle := fun _ _ => unlink |}.

Definition stored_pdf : request :=
  {| file :=
       Some {| originalname := lit "lease.pdf";
               mimetype := lit "application/pdf";
               size := 4;
               path := lit "uploads/3f9a" |} |}.

Definition ENOENT : js_error :=
  {| err_response := None;
     err_message := lit "ENOENT: no such file or directory" |}.

Definition EPERM : js_error :=
  {| err_response := None; err_message := lit "EPERM: operation not permitted" |}.

(** The module with both identifiers unset.  The handler passes the two
    client handles on as they are and reads nothing in them. *)
Definition unset_app : app :=
  {| PROJECT_ID := None;
     PROCESSOR_ID := None;
     documentai :=
       {| da_version := lit "v1";
          da_auth :=
            {| auth_credentials := VUndefined;
               auth_projectId := [];
               auth_scopes := [lit "https://www.googleapis.com/auth/cloud-platform"] |} |};
     model :=
       {| gm_client :=
            {| vo_project := [];
               vo_location := lit "us-central1";
               vo_googleAuthOptions := None |};
          gm_model := lit "gemini-2.5-flash-lite" |} |}.

End ServerKeyFile.

Section ThirdCopyPaths.

Import ServerKeyFile.

Variable w : fs_world.
Variable a : app.
Variable req : ServerKeyFile.request.

Definition reading (f : stored_file) (o : outcome (list N)) : fs_event :=
  ReadFile (path f) o.

Definition extraction3 (f : stored_file) (bytes : list N)
    (o : outcome process_result) : event :=
  ProcessCall (documentai a) (ServerKeyFile.process_params_of a f bytes) o.

Definition removal (f : stored_file) (o : option js_error) : fs_event :=
  Unlink (path f) o.

Definition generation3 (prompt : js_string)
    (o : outcome (option generate_result)) : event :=
  GenerateCall (model a) (user_request prompt) o.

(** The upload was read, extracted to [document_text r] and removed. *)
Definition stored_text (f : stored_file) (bytes : list N) (r : process_result)
  : Prop :=
  ServerKeyFile.file req = Some f /\
  readFileSync_oracle w [] (path f) = Returns bytes /\
  process_oracle (cloud w) [] (documentai a)
    (ServerKeyFile.process_params_of a f bytes) = Returns r /\
  unlinkSync_oracle w
    [reading f (Returns bytes); Remote (extraction3 f bytes (Returns r))]
    (path f) = None.

Inductive third_copy_path : response -> list fs_event -> Prop :=
| path3_no_file :
    ServerKeyFile.file req = None ->
    third_copy_path generic_failure []
| path3_read_failed f e :
    ServerKeyFile.file req = Some f ->
    readFileSync_oracle w [] (path f) = Throws e ->
    third_copy_path generic_failure [reading f (Throws e)]
| path3_extraction_failed f bytes e :
    ServerKeyFile.file req = Some f ->
    readFileSync_oracle w [] (path f) = Returns bytes ->
    process_oracle (cloud w) [] (documentai a)
      (ServerKeyFile.process_params_of a f bytes) = Throws e ->
    third_copy_path generic_failure
      [reading f (Returns bytes); Remote (extraction3 f bytes (Throws e))]
| path3_unlink_failed f bytes r e :
    ServerKeyFile.file req = Some f ->
    readFileSync_oracle w [] (path f) = Returns bytes ->
    process_oracle (cloud w) [] (documentai a)
      (ServerKeyFile.process_params_of a f bytes) = Returns r ->
    unlinkSync_oracle w
      [reading f (Returns bytes); Remote (extraction3 f bytes (Returns r))]
      (path f) = Some e ->
    third_copy_path generic_failure
      [reading f (Returns bytes); Remote (extraction3 f bytes (Returns r));
       removal f (Some e)]
| path3_no_text f bytes r :
    stored_text f bytes r ->
    trim (document_text r) = [] ->
    third_copy_path
      (error_reply 400 "Document contained no extractable text.")
      [reading f (Returns bytes); Remote (extraction3 f bytes (Returns r));
       removal f None]
| path3_summary_unusable f bytes r o :
    stored_text f bytes r ->
    trim (document_text r) <> [] ->
    let text := document_text r in
    generate_oracle (cloud w) [extraction3 f bytes (Returns r)] (model a)
      (user_request (ServerKeyFile.summaryPrompt text)) = o ->
    unusable o ->
    third_copy_path generic_failure
      [reading f (Returns bytes); Remote (extraction3 f bytes (Returns r));
       removal f None;
       Remote (generation3 (ServerKeyFile.summaryPrompt text) o)]
| path3_keyTerms_unusable f bytes r r1 o :
    stored_text f bytes r ->
    trim (document_text r) <> [] ->
    let text := document_text r in
    generate_oracle (cloud w) [extraction3 f bytes (Returns r)] (model a)
      (user_request (ServerKeyFile.summaryPrompt text)) = Returns (Some r1) ->
    generate_oracle (cloud w)
      [extraction3 f bytes (Returns r);
       generation3 (ServerKeyFile.summaryPrompt text) (Returns (Some r1))]
      (model a) (user_request (ServerKeyFile.keyTermsPrompt text)) = o ->
    unusable o ->
    third_copy_path generic_failure
      [reading f (Returns bytes); Remote (extraction3 f bytes (Returns r));
       removal f None;
       Remote (generation3 (ServerKeyFile.summaryPrompt text) (Returns (Some r1)));
       Remote (generation3 (ServerKeyFile.keyTermsPrompt text) o)]
| path3_risk_unusable f bytes r r1 r2 o :
    stored_text f bytes r ->
    trim (document_text r) <> [] ->
    let text := document_text r in
    generate_oracle (cloud w) [extraction3 f bytes (Returns r)] (model a)
      (user_request (ServerKeyFile.summaryPrompt text)) = Returns (Some r1) ->
    generate_oracle (cloud w)
      [extraction3 f bytes (Returns r);
       generation3 (ServerKeyFile.summaryPrompt text) (Returns (Some r1))]
      (model a) (user_request (ServerKeyFile.keyTermsPrompt text))
      = Returns (Some r2) ->
    generate_oracle (cloud w)
      [extraction3 f bytes (Returns r);
       generation3 (ServerKeyFile.summaryPrompt text) (Returns (Some r1));
       generation3 (ServerKeyFile.keyTermsPrompt text) (Returns (Some r2))]
      (model a) (user_request (ServerKeyFile.riskPrompt text)) = o ->
    unusable o ->
    third_copy_path generic_failure
      [reading f (Returns bytes); Remote (extraction3 f bytes (Returns r));
       removal f None;
       Remote (generation3 (ServerKeyFile.summaryPrompt text) (Returns (Some r1)));
       Remote (generation3 (ServerKeyFile.keyTermsPrompt text) (Returns (Some r2)));
       Remote (generation3 (ServerKeyFile.riskPrompt text) o)]
| path3_answered f bytes r r1 r2 r3 :
    stored_text f bytes r ->
    trim (document_text r) <> [] ->
    let text := document_text r in
    generate_oracle (cloud w) [extraction3 f bytes (Returns r)] (model a)
      (user_request (ServerKeyFile.summaryPrompt text)) = Returns (Some r1) ->
    generate_oracle (cloud w)
      [extraction3 f bytes (Returns r);
       generation3 (ServerKeyFile.summaryPrompt text) (Returns (Some r1))]
      (model a) (user_request (ServerKeyFile.keyTermsPrompt text))
      = Returns (Some r2) ->
    generate_oracle (cloud w)
      [extraction3 f bytes (Returns r);
       generation3 (ServerKeyFile.summaryPrompt text) (Returns (Some r1));
       generation3 (ServerKeyFile.keyTermsPrompt text) (Returns (Some r2))]
      (model a) (user_request (ServerKeyFile.riskPrompt text))
      = Returns (Some r3) ->
    third_copy_path
      (analysis_reply text
         (or_string (first_candidate_text (Some r1)) (lit "Summary not generated"))
         (or_string (first_candidate_text (Some r2)) (lit "Key terms not extracted"))
         (or_string (first_candidate_text (Some r3))
            (lit "Risk assessment not generated")))
      [reading f (Returns bytes); Remote (extraction3 f bytes (Returns r));
       removal f None;
       Remote (generation3 (ServerKeyFile.summaryPrompt text) (Returns (Some r1)));
       Remote (generation3 (ServerKeyFile.keyTermsPrompt text) (Returns (Some r2)));
       Remote (generation3 (ServerKeyFile.riskPrompt text) (Returns (Some r3)))].

End ThirdCopyPaths.

(* ================================================================== *)
(** * Further concrete inputs                                           *)
(* ================================================================== *)

Module MoreSamples.

(** [JSON.parse] on a few more documents: the empty object, and the
    falsy literals [0], [false] and the empty string literal. *)
Definition lenient_JSON_parse (s : js_string) : outcome value :=
  if js_string_eqb s (lit "{}") then Returns (VObject [])
  else if js_string_eqb s (lit "0") then Returns (VNumber (S754_zero false))
  else if js_string_eqb s (lit "false") then Returns (VBool false)
  else if js_string_eqb s [Samples.DQUOTE; Samples.DQUOTE] then Returns (VString [])
  else Samples.stub_JSON_parse s.

(** [w] with another [JSON.parse]. *)
Definition with_JSON_parse (p : js_string -> outcome value) (w : world) : world :=
  {| JSON_parse := p;
     new_VertexAI := new_VertexAI w;
     process_oracle := process_oracle w;
     generate_oracle := generate_oracle w |}.

(** [w] with a [VertexAI] constructor that throws. *)
Definition with_failing_VertexAI (e : js_error) (w : world) : world :=
  {| JSON_parse := JSON_parse w;
     new_VertexAI := fun _ => Some e;
     process_oracle := process_oracle w;
     generate_oracle := generate_oracle w |}.

Definition lenient : world := with_JSON_parse lenient_JSON_parse Samples.healthy.

(** The module as it loads from the blob [{}]. *)
Definition keyless_app : Server.app :=
  {| Server.PROJECT_ID := lit "genai-471818";
     Server.PROCESSOR_ID := lit "54be1a4c93565429";
     Server.VERTEX_MODEL := lit "gemini-2.5-flash-lite";
     Server.credentials := VObject [];
     Server.documentai :=
       Some {| da_version := lit "v1";
               da_auth :=
                 {| auth_credentials := VObject [];
                    auth_projectId := lit "genai-471818";
                    auth_scopes := [lit "https://www.googleapis.com/auth/cloud-platform"] |} |};
     Server.model :=
       Some {| gm_client :=
                 {| vo_project := lit "genai-471818";
                    vo_location := lit "us-central1";
                    vo_googleAuthOptions := Some (VObject []) |};
               gm_model := lit "gemini-2.5-flash-lite" |} |}.

(** The module as it loads from the blob [0]. *)
Definition zero_app : Server.app :=
  {| Server.PROJECT_ID := lit "genai-471818";
     Server.PROCESSOR_ID := lit "54be1a4c93565429";
     Server.VERTEX_MODEL := lit "gemini-2.5-flash-lite";
     Server.credentials := VNumber (S754_zero false);
     Server.documentai :=
       Some {| da_version := lit "v1";
               da_auth :=
                 {| auth_credentials := VUndefined;
                    auth_projectId := lit "genai-471818";
                    auth_scopes := [lit "https://www.googleapis.com/auth/cloud-platform"] |} |};
     Server.model :=
       Some {| gm_client :=
                 {| vo_project := lit "genai-471818";
                    vo_location := lit "us-central1";
                    vo_googleAuthOptions := None |};
               gm_model := lit "gemini-2.5-flash-lite" |} |}.

(** A rejection whose response body was the JSON text [1e999], which
    [JSON.parse] reads as [Infinity]. *)
Definition overflowing_body : js_error :=
  {| err_response := Some {| err_data := VNumber (S754_infinity false) |};
     err_message := lit "Request failed with status code 500" |}.

(** An extraction answer without a document. *)
Definition no_document : outcome process_result :=
  Returns {| data := {| data_document := None |} |}.

End MoreSamples.

(** ** Tactics for the paths *)

(** Case analysis on the path of a request: the trace becomes the list of
    events of each path, everywhere. *)
Ltac split_path P :=
  let tr := fresh "tr" in
  let E := fresh "Etr" in
  match type of P with
  | upload_path _ _ _ _ _ _ ?t => remember t as tr eqn:E in *
  end;
  destruct P; clear E;
  repeat match goal with
    | H : extracted_text _ _ _ _ _ _ |- _ =>
        let Hf := fresh "Hfile" in
        let Hc := fresh "Hcred" in
        let Hp := fresh "Hproc" in
        let Ht := fresh "Htext" in
        destruct H as (Hf & Hc & Hp & Ht)
    end.

(** Reads the hypotheses about a trace that is now a list of events. *)
Ltac read_trace :=
  unfold extraction, generation in *;
  cbn [process_results generate_results generate_requests generate_models
       flat_map List.app In nth_error Server.site_index] in *;
  repeat match goal with
    | H : False |- _ => destruct H
    | H : _ \/ _ |- _ => destruct H
    | H : Returns _ = Returns _ |- _ => injection H as H; try subst
    | H : Throws _ = Throws _ |- _ => injection H as H; try subst
    | H : Some _ = Some _ |- _ => injection H as H; try subst
    | H : Returns _ = Throws _ |- _ => discriminate H
    | H : Throws _ = Returns _ |- _ => discriminate H
    | H : Some _ = None |- _ => discriminate H
    | H : None = Some _ |- _ => discriminate H
    | H : Forall _ (_ :: _) |- _ => inversion H; clear H; subst
    | H : returned (Throws _) |- _ => destruct H
    end.

Unset Implicit Arguments.

(* ================================================================== *)
(** * Strings                                                          *)
(* ================================================================== *)

Section StringFacts.

Lemma trimStart_nil (s : js_string) :
  trimStart s = [] <-> forallb is_white_space s = true.
Proof.
  induction s as [|c r IH]; simpl.
  - tauto.
  - destruct (is_white_space c); simpl.
    + exact IH.
    + split; discriminate.
Qed.

Lemma trim_nil (s : js_string) :
  trim s = [] <-> forallb is_white_space s = true.
Proof.
  unfold trim, trimEnd.
  split.
  - intros H.
    apply trimStart_nil.
    destruct (trimStart s) as [|c r] eqn:E; [reflexivity|].
    rewrite <- E in H.
    assert (Hr : trimStart (rev (trimStart s)) = []).
    { destruct (trimStart (rev (trimStart s))) as [|x l]; [reflexivity|].
      simpl in H. apply app_eq_nil in H. destruct H; discriminate. }
    apply trimStart_nil in Hr.
    rewrite forallb_forall in Hr.
    assert (Hc : is_white_space c = true).
    { apply Hr. rewrite <- in_rev, E. now left. }
    clear - E Hc.
    induction s as [|d s IH]; simpl in E; [discriminate|].
    destruct (is_white_space d) eqn:Ed.
    + now apply IH.
    + congruence.
  - intros H. apply trimStart_nil in H. now rewrite H.
Qed.

(** Induction that steps over one or two code units, as the scan of
    [replace_escaped_newlines] does. *)
Lemma list_pair_ind (A : Type) (P : list A -> Prop) :
  P [] ->
  (forall c, P [c]) ->
  (forall c d r, P r -> P (d :: r) -> P (c :: d :: r)) ->
  forall l, P l.
Proof.
  intros H0 H1 H2 l.
  enough (P l /\ forall c, P (c :: l)) by tauto.
  induction l as [|d r [IH IH']].
  - split; [exact H0 | exact H1].
  - split; [apply IH' | intros c; apply H2; [exact IH | apply IH']].
Qed.

Lemma replace_escaped_newlines_step (c d : N) (r : js_string) :
  replace_escaped_newlines (c :: d :: r) =
  if ((c =? BACKSLASH) && (d =? LOWER_N))%N
  then LF :: replace_escaped_newlines r
  else c :: replace_escaped_newlines (d :: r).
Proof. reflexivity. Qed.

Lemma replace_escaped_newlines_head (d : N) (r : js_string) :
  exists y rest,
    replace_escaped_newlines (d :: r) = y :: rest /\ (y = d \/ y = LF).
Proof.
  destruct r as [|d' r'].
  - exists d, []. auto.
  - rewrite replace_escaped_newlines_step.
    destruct ((d =? BACKSLASH) && (d' =? LOWER_N))%N; eauto.
Qed.

(** After the replacement no backslash-[n] pair is left. *)
Lemma replace_escaped_newlines_complete (s : js_string) :
  includes (replace_escaped_newlines s) [BACKSLASH; LOWER_N] = false.
Proof.
  induction s as [| c | c d r IHr IHdr] using list_pair_ind.
  - reflexivity.
  - simpl. now rewrite andb_false_r.
  - rewrite replace_escaped_newlines_step.
    destruct ((c =? BACKSLASH) && (d =? LOWER_N))%N eqn:E.
    + cbn [includes starts_with]. rewrite IHr. reflexivity.
    + cbn [includes]. rewrite IHdr, orb_false_r.
      destruct (replace_escaped_newlines_head d r) as (y & rest & -> & Hy).
      cbn [starts_with]. rewrite andb_true_r.
      destruct (N.eqb_spec BACKSLASH c) as [<-|]; [|reflexivity].
      destruct (N.eqb_spec LOWER_N y) as [<-|]; [|reflexivity].
      destruct Hy as [<-|Hy]; [|discriminate].
      discriminate.
Qed.

(** Each backslash-[n] pair becomes one line feed, and what stands before
    and after it is rewritten on its own. *)
Lemma replace_escaped_newlines_app (pre post : js_string) :
  replace_escaped_newlines (pre ++ [BACKSLASH; LOWER_N] ++ post) =
  replace_escaped_newlines pre ++ [LF] ++ replace_escaped_newlines post.
Proof.
  induction pre as [| c | c d r IHr IHdr] using list_pair_ind.
  - reflexivity.
  - cbn [List.app]. rewrite replace_escaped_newlines_step.
    replace ((c =? BACKSLASH) && (BACKSLASH =? LOWER_N))%N with false
      by (now rewrite andb_false_r).
    change (replace_escaped_newlines (BACKSLASH :: LOWER_N :: post))
      with (LF :: replace_escaped_newlines post).
    reflexivity.
  - change ((c :: d :: r) ++ [BACKSLASH; LOWER_N] ++ post)
      with (c :: d :: (r ++ [BACKSLASH; LOWER_N] ++ post)).
    rewrite !replace_escaped_newlines_step.
    destruct ((c =? BACKSLASH) && (d =? LOWER_N))%N.
    + rewrite IHr. reflexivity.
    + change (d :: r ++ [BACKSLASH; LOWER_N] ++ post)
        with ((d :: r) ++ [BACKSLASH; LOWER_N] ++ post).
      rewrite IHdr. reflexivity.
Qed.

(** A text without the pair is left as it is. *)
Lemma replace_escaped_newlines_id (s : js_string) :
  includes s [BACKSLASH; LOWER_N] = false ->
  replace_escaped_newlines s = s.
Proof.
  induction s as [| c | c d r IHr IHdr] using list_pair_ind; intros H.
  - reflexivity.
  - reflexivity.
  - rewrite replace_escaped_newlines_step.
    cbn [includes starts_with] in H.
    apply orb_false_elim in H. destruct H as [H1 H2].
    rewrite andb_true_r in H1.
    rewrite (N.eqb_sym c), (N.eqb_sym d), H1.
    f_equal. apply IHdr. exact H2.
Qed.

Lemma starts_with_spec (t s : js_string) :
  starts_with t s = true <-> exists post, s = t ++ post.
Proof.
  revert s. induction t as [|x t IH]; intros s; simpl.
  - split; eauto.
  - destruct s as [|y s].
    + split; [discriminate | intros [post H]; discriminate].
    + rewrite andb_true_iff, N.eqb_eq, IH. split.
      * intros [-> [post ->]]. eauto.
      * intros [post H]. injection H as -> ->. eauto.
Qed.

(** [includes] decides [occurs_in]. *)
Lemma includes_spec (s t : js_string) :
  includes s t = true <-> occurs_in t s.
Proof.
  unfold occurs_in.
  induction s as [|y s IH].
  - simpl. rewrite orb_false_r, starts_with_spec. split.
    + intros [post H]. exists [], post. exact H.
    + intros (pre & post & H).
      destruct pre; [eauto | discriminate].
  - cbn [includes]. rewrite orb_true_iff, starts_with_spec, IH. split.
    + intros [[post H] | (pre & post & H)].
      * exists [], post. exact H.
      * exists (y :: pre), post. now rewrite H.
    + intros (pre & post & H). destruct pre as [|y' pre].
      * left. eauto.
      * right. injection H as _ H. eauto.
Qed.

(** An object is written member by member. *)
Lemma to_json_object (props : list (string * value)) :
  to_json (VObject props) = VObject (json_members props).
Proof. reflexivity. Qed.

Example to_json_array :
  to_json
    (VArray [VUndefined; VNumber S754_nan; VNumber (S754_zero true);
             VNumber (S754_infinity true); VString (lit "x")])
  = VArray [VNull; VNull; VNumber (S754_zero false); VNull; VString (lit "x")].
Proof. reflexivity. Qed.

Example json_members_drop_and_null :
  json_members
    [ ("a", VUndefined); ("b", VNumber (S754_infinity false));
      ("c", VObject [ ("d", VUndefined); ("e", VBool true) ]) ]%string
  = [ ("b", VNull); ("c", VObject [ ("e", VBool true) ]) ]%string.
Proof. reflexivity. Qed.

Example base64_three_bytes : base64 (lit "Man") = lit "TWFu".
Proof. reflexivity. Qed.

Example base64_two_bytes : base64 (lit "Ma") = lit "TWE=".
Proof. reflexivity. Qed.

Example base64_one_byte : base64 (lit "M") = lit "TQ==".
Proof. reflexivity. Qed.

Example trim_both_ends : trim ([9; 32] ++ lit "a b" ++ [160; 10])%N = lit "a b".
Proof. reflexivity. Qed.

Example replace_two_pairs :
  replace_escaped_newlines (lit "a\nb\\nc\") = [97; 10; 98; 92; 10; 99; 92]%N.
Proof. reflexivity. Qed.

End StringFacts.

(* ================================================================== *)
(** * Every request follows one of the paths                            *)
(* ================================================================== *)

Section PathFacts.

Import Server.

Lemma to_boolean_string_trim (s : js_string) :
  negb (to_boolean (VString (trim s))) = true <-> trim s = [].
Proof.
  destruct (trim s); simpl; split; congruence.
Qed.

Lemma diagnostic_defined (e : js_error) : diagnostic e <> VUndefined.
Proof.
  unfold diagnostic, js_or.
  destruct (err_response e) as [r|]; simpl; [|discriminate].
  destruct (to_boolean (err_data r)) eqn:E; [|discriminate].
  intros H. rewrite H in E. discriminate.
Qed.

Lemma detailed_error_sent (msg : string) (e : js_error) :
  res_status_json 500
    [ ("error", VString (lit msg)); ("detail", diagnostic e) ]%string
  = detailed_error_reply msg e.
Proof.
  unfold res_status_json, detailed_error_reply. cbn [json_members].
  pose proof (diagnostic_defined e) as H.
  destruct (diagnostic e); try reflexivity. congruence.
Qed.

Lemma upload_sound (w : world) (a : app) (client : documentai_client)
    (gm : generative_model) (req : request) :
  documentai a = Some client ->
  model a = Some gm ->
  exists resp tr,
    upload a req w [] = (Returns resp, tr) /\ upload_path w a client gm req resp tr.
Proof.
  intros Hc Hm.
  cbv beta delta [upload try_catch bind ret].
  rewrite Hc, Hm.
  destruct (file req) as [f|] eqn:Hf.
  2:{ eexists _, _. split; [reflexivity|]. now apply path_no_file. }
  destruct (to_boolean (credentials a)) eqn:Hcr; cbn [negb].
  2:{ eexists _, _. split; [reflexivity|]. now apply path_no_credentials with f. }
  cbv beta iota delta [process of_outcome ret throw].
  change {| name := _; requestBody := _ |} with (process_params_of a f).
  destruct (process_oracle w [] client (process_params_of a f)) as [r|e] eqn:Hp.
  2:{ eexists _, _. split; [cbn [List.app]; rewrite detailed_error_sent; reflexivity|].
      now apply path_extraction_failed. }
  cbn [List.app].
  destruct (negb (to_boolean (VString (trim (document_text r))))) eqn:Ht.
  { apply to_boolean_string_trim in Ht.
    eexists _, _. split; [reflexivity|]. now apply path_no_text. }
  assert (Hx : extracted_text w a client req f r).
  { repeat split; try assumption.
    intros Hn. apply to_boolean_string_trim in Hn. congruence. }
  cbv beta iota delta [analyze try_catch bind ret makeRequest generateContent
                         of_outcome throw].
  destruct (generate_oracle w _ gm (reqBody (summaryPrompt _))) as [r1|e] eqn:H1;
    cbn [List.app].
  2:{ eexists _, _. split; [rewrite detailed_error_sent; reflexivity|].
      now apply path_summary_failed. }
  destruct (generate_oracle w _ gm (reqBody (keyTermsPrompt _))) as [r2|e] eqn:H2;
    cbn [List.app].
  2:{ eexists _, _. split; [rewrite detailed_error_sent; reflexivity|].
      now apply path_keyTerms_failed. }
  destruct (generate_oracle w _ gm (reqBody (riskPrompt _))) as [r3|e] eqn:H3;
    cbn [List.app].
  2:{ eexists _, _. split; [rewrite detailed_error_sent; reflexivity|].
      now apply path_risk_failed. }
  eexists _, _. split; [reflexivity|].
  now apply path_answered.
Qed.

End PathFacts.

(* ================================================================== *)
(** * Module start-up                                                   *)
(* ================================================================== *)

Section StartupFacts.

Import Server.

(** The loader never throws: the outer [catch] turns every failure into
    [null]. *)
Lemma load_credentials_returns (env : environment) (w : world) (tr : list event) :
  exists v tr', load_credentials env w tr = (Returns v, tr').
Proof.
  unfold load_credentials, try_catch, bind, parse, of_outcome, ret, throw.
  destruct (JSON_parse w (to_string (env_GOOGLE_CREDENTIALS env))).
  - eauto.
  - destruct (env_GOOGLE_CREDENTIALS env) as [blob|].
    + destruct (JSON_parse w (replace_escaped_newlines blob)); eauto.
    + eauto.
Qed.

(** A loaded module has both clients, and its model is the fixed one. *)
Lemma load_module_inv (env : environment) (w : world) (tr0 tr : list event)
    (a : app) :
  load_module env w tr0 = (Returns a, tr) ->
  exists client gm tr1,
    documentai a = Some client /\
    model a = Some gm /\
    gm_model gm = lit "gemini-2.5-flash-lite" /\
    PROJECT_ID a = or_string (env_PROJECT_ID env) (lit "genai-471818") /\
    VERTEX_MODEL a = or_string (env_VERTEX_MODEL env) (lit "gemini-2.5-flash-lite") /\
    load_credentials env w tr0 = (Returns (credentials a), tr1) /\
    parse_sources tr = parse_sources tr1.
Proof.
  unfold load_module, bind.
  destruct (load_credentials env w tr0) as [[creds|e] tr1] eqn:E; [|discriminate].
  unfold try_catch, bind, construct_vertex, ret, throw.
  destruct (new_VertexAI w _) as [e|]; [discriminate|].
  intros H. injection H as <- <-. simpl.
  eexists _, _, tr1. repeat split.
  unfold parse_sources. rewrite flat_map_app. simpl. now rewrite app_nil_r.
Qed.

(** [upload] reads every module binding except [VERTEX_MODEL]. *)
Lemma upload_ext (a a' : app) (req : request) :
  PROJECT_ID a = PROJECT_ID a' ->
  PROCESSOR_ID a = PROCESSOR_ID a' ->
  credentials a = credentials a' ->
  documentai a = documentai a' ->
  model a = model a' ->
  upload a req = upload a' req.
Proof.
  destruct a, a'. simpl. intros; subst. reflexivity.
Qed.

Lemma load_module_vertex_model (env : environment) (v : option js_string)
    (w : world) (tr0 tr : list event) (a : app) :
  load_module env w tr0 = (Returns a, tr) ->
  exists a',
    load_module (with_VERTEX_MODEL env v) w tr0 = (Returns a', tr) /\
    PROJECT_ID a' = PROJECT_ID a /\
    PROCESSOR_ID a' = PROCESSOR_ID a /\
    credentials a' = credentials a /\
    documentai a' = documentai a /\
    model a' = model a /\
    VERTEX_MODEL a' = or_string v (lit "gemini-2.5-flash-lite").
Proof.
  unfold load_module, bind.
  change (load_credentials (with_VERTEX_MODEL env v)) with (load_credentials env).
  destruct (load_credentials env w tr0) as [[creds|e] tr1]; [|discriminate].
  unfold try_catch, bind, construct_vertex, ret, throw. simpl.
  destruct (new_VertexAI w _) as [e|]; [discriminate|].
  intros H. injection H as <- <-.
  eexists. split; [reflexivity|]. simpl. repeat split.
Qed.

(** Every request to a loaded module is answered along one of the paths. *)
Lemma upload_cases (env : environment) (w0 w : world) (tr0 : list event)
    (a : app) (req : request) :
  load_module env w0 [] = (Returns a, tr0) ->
  exists client gm resp,
    gm_model gm = lit "gemini-2.5-flash-lite" /\
    reply a req w = Returns resp /\
    upload_path w a client gm req resp (calls a req w).
Proof.
  intros H.
  destruct (load_module_inv _ _ _ _ _ H) as (client & gm & tr1 & Hc & Hm & Hn & _).
  destruct (upload_sound w a client gm req Hc Hm) as (resp & tr & E & P).
  exists client, gm, resp. unfold reply, calls. rewrite E. auto.
Qed.

End StartupFacts.

(* ================================================================== *)
(** * Credentials                                                       *)
(* ================================================================== *)

Section CredentialFacts.

Import Server.

(** When every [JSON.parse] of the start-up failed, the credentials are
    [null]. *)
Lemma load_credentials_failed (env : environment) (w : world)
    (v : value) (tr : list event) :
  load_credentials env w [] = (Returns v, tr) ->
  (forall s, In s (parse_sources tr) -> ~ returned (JSON_parse w s)) ->
  v = VNull.
Proof.
  unfold load_credentials, try_catch, bind, parse, of_outcome, ret, throw.
  destruct (JSON_parse w (to_string (env_GOOGLE_CREDENTIALS env))) as [v0|e] eqn:E0.
  - intros H F. injection H as <- <-.
    exfalso. apply (F (to_string (env_GOOGLE_CREDENTIALS env))).
    + simpl. now left.
    + now rewrite E0.
  - destruct (env_GOOGLE_CREDENTIALS env) as [blob|].
    + destruct (JSON_parse w (replace_escaped_newlines blob)) as [v1|e1] eqn:E1.
      * intros H F. injection H as <- <-.
        exfalso. apply (F (replace_escaped_newlines blob)).
        -- simpl. right. now left.
        -- now rewrite E1.
      * intros H _. now injection H as <- _.
    + intros H _. now injection H as <- _.
Qed.

(** With the variable unset, [JSON.parse(undefined)] is the one parse: the
    [replace] on [undefined] throws and the outer [catch] leaves [null]. *)
Lemma load_credentials_unset (env : environment) (w : world) (e : js_error) :
  env_GOOGLE_CREDENTIALS env = None ->
  JSON_parse w (lit "undefined") = Throws e ->
  load_credentials env w [] =
  (Returns VNull, [ParseCall (lit "undefined") (Throws e)]).
Proof.
  intros Hn He.
  unfold load_credentials, try_catch, bind, parse, of_outcome, ret, throw.
  rewrite Hn. cbn [to_string]. rewrite He. reflexivity.
Qed.

(** C8.  Loading the credentials from the [GOOGLE_CREDENTIALS] blob: the
    blob is parsed directly first; when that parse succeeds its value is
    the credentials and nothing else is parsed; when it fails, every
    backslash-[n] pair of the blob is replaced by a line feed (none is left)
    and the result is parsed, once; when this second parse fails too, the
    credentials are [null]. *)
Theorem credentials_parse_policy (env : environment) (w : world)
    (blob : js_string) :
  env_GOOGLE_CREDENTIALS env = Some blob ->
  let fixed := replace_escaped_newlines blob in
  includes fixed [BACKSLASH; LOWER_N] = false /\
  (forall pre post,
     blob = pre ++ [BACKSLASH; LOWER_N] ++ post ->
     fixed = replace_escaped_newlines pre ++ [LF] ++ replace_escaped_newlines post) /\
  (forall v,
     JSON_parse w blob = Returns v ->
     load_credentials env w [] = (Returns v, [ParseCall blob (Returns v)])) /\
  (forall e v,
     JSON_parse w blob = Throws e ->
     JSON_parse w fixed = Returns v ->
     load_credentials env w [] =
     (Returns v, [ParseCall blob (Throws e); ParseCall fixed (Returns v)])) /\
  (forall e e',
     JSON_parse w blob = Throws e ->
     JSON_parse w fixed = Throws e' ->
     load_credentials env w [] =
     (Returns VNull, [ParseCall blob (Throws e); ParseCall fixed (Throws e')])).
Proof.
  intros Hb fixed.
  split; [apply replace_escaped_newlines_complete|].
  split; [intros pre post ->; apply replace_escaped_newlines_app|].
  unfold load_credentials, try_catch, bind, parse, of_outcome, ret, throw.
  rewrite Hb. cbn [to_string]. fold fixed.
  repeat split.
  - intros v ->. reflexivity.
  - intros e v -> ->. reflexivity.
  - intros e e' -> ->. reflexivity.
Qed.

(** The mangled key document: the direct parse fails, the repaired text
    parses, and the key object is loaded after exactly two parses. *)
Lemma credentials_parse_policy_witness :
  env_GOOGLE_CREDENTIALS (Samples.env_with (Some Samples.mangled_blob))
    = Some Samples.mangled_blob /\
  load_credentials (Samples.env_with (Some Samples.mangled_blob))
    (Samples.scripted (Samples.extracted Samples.lease_text) []) []
  = (Returns Samples.key_object,
     [ParseCall Samples.mangled_blob (Throws Samples.SyntaxError);
      ParseCall (replace_escaped_newlines Samples.mangled_blob)
        (Returns Samples.key_object)]).
Proof.
  split; [reflexivity|].
  apply (credentials_parse_policy
           (Samples.env_with (Some Samples.mangled_blob))
           (Samples.scripted (Samples.extracted Samples.lease_text) [])
           Samples.mangled_blob eq_refl);
    reflexivity.
Defined.

End CredentialFacts.

(* ================================================================== *)
(** * Requests that never reach the remote services                     *)
(* ================================================================== *)

Section GuardFacts.

Import Server.

(** The handler answers every request, whatever the module bindings and
    the remote services do: no exception leaves it. *)
Lemma upload_always_replies (a : app) (req : request) (w : world)
    (tr : list event) :
  exists resp tr', upload a req w tr = (Returns resp, tr').
Proof.
  unfold upload, analyze, makeRequest, try_catch, bind, process, generateContent,
    of_outcome, ret, throw.
  destruct (file req); [|eauto].
  destruct (negb (to_boolean (credentials a))); [eauto|].
  destruct (documentai a); [|eauto].
  destruct (model a); [|eauto].
  destruct (process_oracle w tr _ _); [|eauto].
  destruct (negb _); [eauto|].
  repeat (destruct (generate_oracle w _ _ _); [|eauto]).
  eauto.
Qed.

Lemma upload_always_replies_second_copy (a : ServerEnvKeys.app) (req : request)
    (w : world) (tr : list event) :
  exists resp tr', ServerEnvKeys.upload a req w tr = (Returns resp, tr').
Proof.
  unfold ServerEnvKeys.upload, ServerEnvKeys.response_text, try_catch, bind,
    process, generateContent, of_outcome, ret, throw.
  destruct (file req); [|eauto].
  destruct (process_oracle w tr _ _); [|eauto].
  destruct (negb _); [eauto|].
  repeat (destruct (generate_oracle w _ _ _) as [[?|]|]; [| eauto | eauto]).
  eauto.
Qed.

Example second_copy_loads :
  ServerEnvKeys.load_module
    {| ServerEnvKeys.env_client_email :=
         Some (lit "svc@genai-471818.iam.gserviceaccount.com");
       ServerEnvKeys.env_private_key := Some (lit "KEY");
       ServerEnvKeys.env_private_key_id := None |}
    Samples.healthy [] =
  (Returns Samples.second_copy_app,
   [VertexInit
      {| vo_project := lit "genai-471818";
         vo_location := lit "us-central1";
         vo_googleAuthOptions := None |} None]).
Proof. reflexivity. Qed.

Example second_copy_answers_a_file :
  fst (ServerEnvKeys.upload Samples.second_copy_app Samples.pdf_request
         Samples.healthy []) =
  Returns
    (analysis_reply Samples.lease_text (lit "Rent is due monthly.")
       (lit "- Rent: due on the 1st") (lit "- Risk Item: Late payment")).
Proof. reflexivity. Qed.

Example first_copy_loads :
  load_module (Samples.env_with (Some Samples.key_blob)) Samples.healthy [] =
  (Returns Samples.loaded_app,
   [ParseCall Samples.key_blob (Returns Samples.key_object);
    VertexInit
      {| vo_project := lit "genai-471818";
         vo_location := lit "us-central1";
         vo_googleAuthOptions := Some Samples.key_object |} None]).
Proof. reflexivity. Qed.

(** The first copy answers a request without a file part with 400 and
    calls nothing. *)
Lemma upload_no_file (a : app) (w : world) :
  upload a {| file := None |} w [] =
  (Returns (error_reply 400 "No file uploaded"), []).
Proof. reflexivity. Qed.

(** C3.  The second copy has no check for the file part: [req.file.buffer]
    throws on a request without one, the only [catch] answers, and the reply
    is 500 [Failed to analyze document], not 400 [No file uploaded].  No
    remote call is made. *)
Theorem upload_no_file_second_copy (a : ServerEnvKeys.app) (w : world) :
  ServerEnvKeys.upload a {| file := None |} w [] =
  (Returns (error_reply 500 "Failed to analyze document"), []).
Proof. reflexivity. Qed.

(** C4.  When every parse of the credentials failed at start-up, the
    credentials are [null], and an upload request that carries a file is
    answered 500 [Server misconfigured: missing credentials] without any
    call to the extraction or the generation service. *)
Theorem upload_rejected_without_credentials (env : environment) (w : world)
    (a : app) (tr0 : list event) (req : request) (f : uploaded_file) :
  load_module env w [] = (Returns a, tr0) ->
  (forall s, In s (parse_sources tr0) -> ~ returned (JSON_parse w s)) ->
  file req = Some f ->
  credentials a = VNull /\
  reply a req w =
    Returns (error_reply 500 "Server misconfigured: missing credentials") /\
  calls a req w = [].
Proof.
  intros Hload Hfail Hfile.
  destruct (load_module_inv _ _ _ _ _ Hload)
    as (client & gm & tr1 & _ & _ & _ & _ & _ & Hcreds & Hsrc).
  rewrite Hsrc in Hfail.
  pose proof (load_credentials_failed _ _ _ _ Hcreds Hfail) as Hnull.
  split; [exact Hnull|].
  destruct (upload_cases _ _ w _ _ req Hload) as (client' & gm' & resp & _ & Hr & P).
  rewrite Hr.
  split_path P; try congruence; try (rewrite Hnull in *; discriminate).
  auto.
Qed.

Lemma upload_rejected_without_credentials_witness :
  load_module (Samples.env_with (Some (lit "not json"))) Samples.healthy []
    = (Returns Samples.unconfigured_app,
       [ParseCall (lit "not json") (Throws Samples.SyntaxError);
        ParseCall (lit "not json") (Throws Samples.SyntaxError);
        VertexInit
          {| vo_project := lit "genai-471818";
             vo_location := lit "us-central1";
             vo_googleAuthOptions := None |} None]) /\
  reply Samples.unconfigured_app Samples.pdf_request Samples.healthy =
    Returns (error_reply 500 "Server misconfigured: missing credentials") /\
  calls Samples.unconfigured_app Samples.pdf_request Samples.healthy = [].
Proof.
  split; [reflexivity|].
  refine (proj2 (upload_rejected_without_credentials
                   (Samples.env_with (Some (lit "not json")))
                   Samples.healthy Samples.unconfigured_app _
                   Samples.pdf_request _ eq_refl _ eq_refl)).
  intros s [<- | [<- | []]]; exact (fun H => H).
Defined.

End GuardFacts.

(* ================================================================== *)
(** * Requests that reach the remote services                           *)
(* ================================================================== *)

Section PipelineFacts.

Import Server.

Example summary_call_throws :
  upload Samples.loaded_app Samples.pdf_request
    (Samples.scripted (Samples.extracted Samples.lease_text)
       [Throws Samples.socket_hang_up]) [] =
  (Returns
     {| status := 500;
        body := [ ("error", VString (lit "Vertex AI generation failed"));
                  ("detail", VString (lit "socket hang up")) ]%string |},
   [ ProcessCall
       {| da_version := lit "v1";
          da_auth :=
            {| auth_credentials := Samples.key_object;
               auth_projectId := lit "genai-471818";
               auth_scopes := [lit "https://www.googleapis.com/auth/cloud-platform"] |} |}
       {| name := lit "projects/genai-471818/locations/us/processors/54be1a4c93565429";
          requestBody :=
            {| rawDocument :=
                 {| content := lit "JVBERg=="; mimeType := lit "application/pdf" |} |} |}
       (Samples.extracted Samples.lease_text);
     GenerateCall
       {| gm_client :=
            {| vo_project := lit "genai-471818";
               vo_location := lit "us-central1";
               vo_googleAuthOptions := Some Samples.key_object |};
          gm_model := lit "gemini-2.5-flash-lite" |}
       (reqBody (summaryPrompt Samples.lease_text))
       (Throws Samples.socket_hang_up) ]).
Proof. reflexivity. Qed.

Example key_terms_call_throws_after_empty_summary :
  reply Samples.loaded_app Samples.pdf_request
    (Samples.scripted (Samples.extracted Samples.lease_text)
       [Samples.no_candidates; Throws Samples.socket_hang_up]) =
  Returns
    {| status := 500;
       body := [ ("error", VString (lit "Vertex AI generation failed"));
                 ("detail", VString (lit "socket hang up")) ]%string |}.
Proof. reflexivity. Qed.

(** C1, as first stated, fails: with credentials, a file and extracted
    text, a generation call that throws still ends the request with 500,
    after one call. *)
Lemma extraction_success_not_sufficient :
  ~ (forall (env : environment) (w : world) (a : app) (tr0 : list event)
            (req : request) (f : uploaded_file) (r : process_result),
       load_module env w [] = (Returns a, tr0) ->
       to_boolean (credentials a) = true ->
       file req = Some f ->
       In (Returns r) (process_results (calls a req w)) ->
       trim (document_text r) <> [] ->
       let text := document_text r in
       (exists summary keyTerms riskAssessment,
          reply a req w =
          Returns (analysis_reply text summary keyTerms riskAssessment)) /\
       generate_requests (calls a req w) =
       [reqBody (summaryPrompt text); reqBody (keyTermsPrompt text);
        reqBody (riskPrompt text)]).
Proof.
  intros H.
  pose (w := Samples.scripted (Samples.extracted Samples.lease_text)
               [Throws Samples.socket_hang_up]).
  destruct (H (Samples.env_with (Some Samples.key_blob)) w Samples.loaded_app
              _ Samples.pdf_request _ _ eq_refl eq_refl eq_refl
              (or_introl eq_refl))
    as [(s & k & ra & Hr) _].
  - discriminate.
  - vm_compute in Hr. discriminate.
Qed.

(** C1.  When the credentials are present, the request carries a file, the
    extraction call returns text that is not empty once trimmed, and no
    generation call throws, the reply is 200 with exactly the four string
    fields [text], [summary], [keyTerms], [riskAssessment], and the
    generation client is called exactly three times: with the summary
    prompt, the key-terms prompt, the risk prompt, in this order. *)
Theorem upload_answers_with_analysis (env : environment) (w : world) (a : app)
    (tr0 : list event) (req : request) (f : uploaded_file) (r : process_result) :
  load_module env w [] = (Returns a, tr0) ->
  to_boolean (credentials a) = true ->
  file req = Some f ->
  In (Returns r) (process_results (calls a req w)) ->
  trim (document_text r) <> [] ->
  Forall returned (generate_results (calls a req w)) ->
  let text := document_text r in
  (exists summary keyTerms riskAssessment,
     reply a req w =
     Returns (analysis_reply text summary keyTerms riskAssessment)) /\
  generate_requests (calls a req w) =
  [reqBody (summaryPrompt text); reqBody (keyTermsPrompt text);
   reqBody (riskPrompt text)].
Proof.
  intros Hload Hcreds Hfile Hin Htrim Hgen text. subst text.
  destruct (upload_cases _ _ w _ _ req Hload) as (client & gm & resp & _ & Hr & P).
  rewrite Hr.
  split_path P; read_trace; try congruence.
  split; [eauto|reflexivity].
Qed.

Lemma upload_answers_with_analysis_witness :
  reply Samples.loaded_app Samples.pdf_request Samples.healthy =
  Returns
    (analysis_reply Samples.lease_text (lit "Rent is due monthly.")
       (lit "- Rent: due on the 1st") (lit "- Risk Item: Late payment")) /\
  generate_requests (calls Samples.loaded_app Samples.pdf_request Samples.healthy) =
  [reqBody (summaryPrompt Samples.lease_text);
   reqBody (keyTermsPrompt Samples.lease_text);
   reqBody (riskPrompt Samples.lease_text)].
Proof.
  assert (Hgen : Forall returned
            (generate_results
               (calls Samples.loaded_app Samples.pdf_request Samples.healthy))).
  { vm_compute. repeat constructor. }
  assert (Htrim : trim (document_text
            {| data := {| data_document :=
                 Some {| doc_text := Some Samples.lease_text |} |} |}) <> []).
  { vm_compute. discriminate. }
  destruct (upload_answers_with_analysis
              (Samples.env_with (Some Samples.key_blob)) Samples.healthy
              Samples.loaded_app _ Samples.pdf_request _ _
              eq_refl eq_refl eq_refl (or_introl eq_refl) Htrim Hgen)
    as [(s & k & ra & Hr) Hreq].
  split; [reflexivity | exact Hreq].
Defined.

(** C2.  When the extraction call returns text that is empty once trimmed
    (empty, or white space only), the reply is 400 with the body
    [{error: "Document contained no extractable text."}] and the generation
    client is not called; and a 200 reply is only ever sent after an
    extraction that returned text which is not empty once trimmed. *)
Theorem upload_rejects_blank_text (env : environment) (w : world) (a : app)
    (tr0 : list event) (req : request) :
  load_module env w [] = (Returns a, tr0) ->
  (forall r,
     In (Returns r) (process_results (calls a req w)) ->
     trim (document_text r) = [] ->
     reply a req w =
       Returns (error_reply 400 "Document contained no extractable text.") /\
     generate_results (calls a req w) = []) /\
  (forall resp,
     reply a req w = Returns resp ->
     status resp = 200%N ->
     exists r,
       In (Returns r) (process_results (calls a req w)) /\
       trim (document_text r) <> []).
Proof.
  intros Hload.
  destruct (upload_cases _ _ w _ _ req Hload) as (client & gm & resp & _ & Hr & P).
  rewrite Hr.
  split.
  - intros r Hin Hblank.
    split_path P; read_trace; try congruence.
    split; reflexivity.
  - intros resp' Hresp Hstatus. injection Hresp as <-.
    split_path P; read_trace; try discriminate Hstatus.
    eexists. split; [left; reflexivity | assumption].
Qed.

Lemma upload_rejects_blank_text_witness :
  forallb is_white_space [32; 10; 160; 9]%N = true /\
  reply Samples.loaded_app Samples.pdf_request
    (Samples.scripted (Samples.extracted [32; 10; 160; 9]%N) []) =
  Returns (error_reply 400 "Document contained no extractable text.") /\
  generate_results
    (calls Samples.loaded_app Samples.pdf_request
       (Samples.scripted (Samples.extracted [32; 10; 160; 9]%N) [])) = [].
Proof.
  split; [reflexivity|].
  refine (proj1 (upload_rejects_blank_text
                   (Samples.env_with (Some Samples.key_blob))
                   (Samples.scripted (Samples.extracted [32; 10; 160; 9]%N) [])
                   Samples.loaded_app _ Samples.pdf_request eq_refl)
            _ (or_introl eq_refl) eq_refl).
Defined.

(** C5, as first stated, fails: a summary call that returns a response
    without candidates does not keep the request at 200 when the next call
    throws. *)
Lemma placeholder_not_always_200 :
  ~ (forall (env : environment) (w : world) (a : app) (tr0 : list event)
            (req : request) (c : call_site) (r : option generate_result),
       load_module env w [] = (Returns a, tr0) ->
       nth_error (generate_results (calls a req w)) (site_index c)
         = Some (Returns r) ->
       first_candidate_text r = None ->
       exists resp,
         reply a req w = Returns resp /\
         status resp = 200%N /\
         get_prop (site_field c) (body resp) = Some (VString (site_placeholder c))).
Proof.
  intros H.
  pose (w := Samples.scripted (Samples.extracted Samples.lease_text)
               [Samples.no_candidates; Throws Samples.socket_hang_up]).
  destruct (H (Samples.env_with (Some Samples.key_blob)) w Samples.loaded_app
              _ Samples.pdf_request Summary _ eq_refl eq_refl eq_refl)
    as (resp & Hr & Hs & _).
  vm_compute in Hr. injection Hr as <-. discriminate Hs.
Qed.

(** C5.  When a generation call returns a response without a first
    candidate with a first text part, and no generation call of the request
    throws, the reply is 200 and the field of that call site holds its
    placeholder: [Summary not generated], [Key terms not extracted],
    [Risk assessment not generated]. *)
Theorem upload_placeholder (env : environment) (w : world) (a : app)
    (tr0 : list event) (req : request) (c : call_site)
    (r : option generate_result) :
  load_module env w [] = (Returns a, tr0) ->
  nth_error (generate_results (calls a req w)) (site_index c)
    = Some (Returns r) ->
  first_candidate_text r = None ->
  Forall returned (generate_results (calls a req w)) ->
  exists resp,
    reply a req w = Returns resp /\
    status resp = 200%N /\
    get_prop (site_field c) (body resp) = Some (VString (site_placeholder c)).
Proof.
  intros Hload Hnth Hnone Hgen.
  destruct (upload_cases _ _ w _ _ req Hload) as (client & gm & resp & _ & Hr & P).
  rewrite Hr. exists resp. split; [reflexivity|].
  split_path P; destruct c; read_trace;
    (split; [reflexivity|]);
    unfold generated_field; rewrite Hnone; reflexivity.
Qed.

Lemma upload_placeholder_witness :
  first_candidate_text
    (Some {| gen_response := Some {| candidates := None |} |}) = None /\
  exists resp,
    reply Samples.loaded_app Samples.pdf_request
      (Samples.scripted (Samples.extracted Samples.lease_text)
         [ Samples.generated (lit "Rent is due monthly.");
           Samples.no_candidates;
           Samples.generated (lit "- Risk Item: Late payment") ])
    = Returns resp /\
    status resp = 200%N /\
    get_prop "keyTerms" (body resp) = Some (VString (lit "Key terms not extracted")).
Proof.
  split; [reflexivity|].
  refine (upload_placeholder
            (Samples.env_with (Some Samples.key_blob))
            (Samples.scripted (Samples.extracted Samples.lease_text)
               [ Samples.generated (lit "Rent is due monthly.");
                 Samples.no_candidates;
                 Samples.generated (lit "- Risk Item: Late payment") ])
            Samples.loaded_app _ Samples.pdf_request KeyTerms _
            eq_refl eq_refl eq_refl _).
  vm_compute. repeat constructor.
Defined.

(** C6, as first stated, fails: the [detail] of the reply is what JSON
    makes of the diagnostic, and for a diagnostic that is not a JSON value
    (here [Infinity], the body [1e999] of the failed call) that is [null],
    not the diagnostic. *)
Lemma generation_detail_not_always_echoed :
  ~ (forall (env : environment) (w : world) (a : app) (tr0 : list event)
            (req : request) (e : js_error),
       load_module env w [] = (Returns a, tr0) ->
       In (Throws e) (generate_results (calls a req w)) ->
       exists resp,
         reply a req w = Returns resp /\
         status resp = 500%N /\
         body resp =
           [ ("error", VString (lit "Vertex AI generation failed"));
             ("detail", diagnostic e) ]%string /\
         get_prop "text" (body resp) = None /\
         forall c, get_prop (site_field c) (body resp) = None).
Proof.
  intros H.
  pose (w := Samples.scripted (Samples.extracted Samples.lease_text)
               [Throws MoreSamples.overflowing_body]).
  destruct (H (Samples.env_with (Some Samples.key_blob)) w Samples.loaded_app
              _ Samples.pdf_request MoreSamples.overflowing_body eq_refl
              (or_introl eq_refl))
    as (resp & Hr & _ & Hb & _).
  vm_compute in Hr. injection Hr as <-.
  vm_compute in Hb. discriminate Hb.
Qed.

(** C6.  When a generation call throws, the reply is 500 with the body
    [{error: "Vertex AI generation failed", detail}], where [detail] is the
    diagnostic of the error that call threw as JSON writes it (a message
    string comes through as it is; a value JSON cannot write, such as a
    number that is not finite, comes through as [null]); none of [text],
    [summary], [keyTerms], [riskAssessment] is in it. *)
Theorem upload_generation_failure (env : environment) (w : world) (a : app)
    (tr0 : list event) (req : request) (e : js_error) :
  load_module env w [] = (Returns a, tr0) ->
  In (Throws e) (generate_results (calls a req w)) ->
  exists resp,
    reply a req w = Returns resp /\
    status resp = 500%N /\
    body resp =
      [ ("error", VString (lit "Vertex AI generation failed"));
        ("detail", to_json (diagnostic e)) ]%string /\
    (forall s, diagnostic e = VString s ->
               get_prop "detail" (body resp) = Some (VString s)) /\
    get_prop "text" (body resp) = None /\
    forall c, get_prop (site_field c) (body resp) = None.
Proof.
  intros Hload Hin.
  destruct (upload_cases _ _ w _ _ req Hload) as (client & gm & resp & _ & Hr & P).
  rewrite Hr. exists resp. split; [reflexivity|].
  split_path P; read_trace;
    (split; [reflexivity|]); (split; [reflexivity|]);
    (split; [intros s Hs; cbn [body detailed_error_reply get_prop String.eqb
                                 Ascii.eqb Bool.eqb];
             rewrite Hs; reflexivity|]);
    (split; [reflexivity|]); intros []; reflexivity.
Qed.

Lemma upload_generation_failure_witness :
  exists resp,
    reply Samples.loaded_app Samples.pdf_request
      (Samples.scripted (Samples.extracted Samples.lease_text)
         [ Samples.generated (lit "Rent is due monthly.");
           Throws Samples.permission_denied ])
    = Returns resp /\
    status resp = 500%N /\
    body resp =
      [ ("error", VString (lit "Vertex AI generation failed"));
        ("detail", VObject [ ("code", VString (lit "403")) ]) ]%string /\
    get_prop "text" (body resp) = None /\
    forall c, get_prop (site_field c) (body resp) = None.
Proof.
  destruct (upload_generation_failure
              (Samples.env_with (Some Samples.key_blob))
              (Samples.scripted (Samples.extracted Samples.lease_text)
                 [ Samples.generated (lit "Rent is due monthly.");
                   Throws Samples.permission_denied ])
              Samples.loaded_app _ Samples.pdf_request Samples.permission_denied
              eq_refl (or_intror (or_introl eq_refl)))
    as (resp & Hr & Hs & Hb & _ & Ht & Hf).
  exists resp. repeat split; assumption.
Defined.

(** C7, as first stated, fails in its [detail]: a failed extraction whose
    diagnostic is not a JSON value (here [Infinity]) is answered with
    [detail: null], not with the diagnostic. *)
Lemma extraction_detail_not_always_echoed :
  ~ (forall (env : environment) (w : world) (a : app) (tr0 : list event)
            (req : request)
            (env' : environment) (w' : world) (a' : app) (tr0' : list event)
            (req' : request) (e : js_error) (r : process_result),
       load_module env w [] = (Returns a, tr0) ->
       load_module env' w' [] = (Returns a', tr0') ->
       In (Throws e) (process_results (calls a req w)) ->
       In (Returns r) (process_results (calls a' req' w')) ->
       trim (document_text r) = [] ->
       exists failed blank,
         reply a req w = Returns failed /\
         reply a' req' w' = Returns blank /\
         status failed = 500%N /\
         body failed =
           [ ("error", VString (lit "Document AI processing failed"));
             ("detail", diagnostic e) ]%string /\
         status blank = 400%N /\
         body blank =
           [ ("error", VString (lit "Document contained no extractable text.")) ]%string /\
         status failed <> status blank).
Proof.
  intros H.
  destruct (H (Samples.env_with (Some Samples.key_blob))
              (Samples.scripted (Throws MoreSamples.overflowing_body) [])
              Samples.loaded_app _ Samples.pdf_request
              (Samples.env_with (Some Samples.key_blob))
              (Samples.scripted (Samples.extracted (lit "   ")) [])
              Samples.loaded_app _ Samples.pdf_request
              MoreSamples.overflowing_body _
              eq_refl eq_refl (or_introl eq_refl) (or_introl eq_refl) eq_refl)
    as (failed & blank & Hr & _ & _ & Hb & _).
  vm_compute in Hr. injection Hr as <-.
  vm_compute in Hb. discriminate Hb.
Qed.

(** C7.  A failed extraction call and an extraction that returns blank
    text are answered apart: the first with 500 and the body
    [{error: "Document AI processing failed", detail}], [detail] being the
    diagnostic of the error thrown as JSON writes it (a message string as it
    is, [null] for a value JSON cannot write), the second with 400; the two
    status codes differ. *)
Theorem extraction_failure_apart_from_blank_text
    (env : environment) (w : world) (a : app) (tr0 : list event) (req : request)
    (env' : environment) (w' : world) (a' : app) (tr0' : list event)
    (req' : request) (e : js_error) (r : process_result) :
  load_module env w [] = (Returns a, tr0) ->
  load_module env' w' [] = (Returns a', tr0') ->
  In (Throws e) (process_results (calls a req w)) ->
  In (Returns r) (process_results (calls a' req' w')) ->
  trim (document_text r) = [] ->
  exists failed blank,
    reply a req w = Returns failed /\
    reply a' req' w' = Returns blank /\
    status failed = 500%N /\
    body failed =
      [ ("error", VString (lit "Document AI processing failed"));
        ("detail", to_json (diagnostic e)) ]%string /\
    (forall s, diagnostic e = VString s ->
               get_prop "detail" (body failed) = Some (VString s)) /\
    status blank = 400%N /\
    body blank =
      [ ("error", VString (lit "Document contained no extractable text.")) ]%string /\
    status failed <> status blank.
Proof.
  intros Hload Hload' Hin Hin' Hblank.
  destruct (upload_cases _ _ w _ _ req Hload) as (client & gm & resp & _ & Hr & P).
  destruct (upload_cases _ _ w' _ _ req' Hload')
    as (client' & gm' & resp' & _ & Hr' & P').
  rewrite Hr, Hr'. exists resp, resp'.
  split; [reflexivity|]. split; [reflexivity|].
  split_path P; read_trace.
  split_path P'; read_trace; try congruence.
  split; [reflexivity|]. split; [reflexivity|].
  split; [intros s Hs; cbn [body detailed_error_reply get_prop String.eqb
                              Ascii.eqb Bool.eqb];
          rewrite Hs; reflexivity|].
  repeat split. discriminate.
Qed.

Lemma extraction_failure_apart_from_blank_text_witness :
  exists failed blank,
    reply Samples.loaded_app Samples.pdf_request
      (Samples.scripted (Throws Samples.permission_denied) []) = Returns failed /\
    reply Samples.loaded_app Samples.pdf_request
      (Samples.scripted (Samples.extracted (lit "   ")) []) = Returns blank /\
    status failed = 500%N /\
    body failed =
      [ ("error", VString (lit "Document AI processing failed"));
        ("detail", VObject [ ("code", VString (lit "403")) ]) ]%string /\
    status blank = 400%N /\
    body blank =
      [ ("error", VString (lit "Document contained no extractable text.")) ]%string /\
    status failed <> status blank.
Proof.
  destruct (extraction_failure_apart_from_blank_text
              (Samples.env_with (Some Samples.key_blob))
              (Samples.scripted (Throws Samples.permission_denied) [])
              Samples.loaded_app _ Samples.pdf_request
              (Samples.env_with (Some Samples.key_blob))
              (Samples.scripted (Samples.extracted (lit "   ")) [])
              Samples.loaded_app _ Samples.pdf_request
              Samples.permission_denied _
              eq_refl eq_refl (or_introl eq_refl) (or_introl eq_refl) eq_refl)
    as (failed & blank & H1 & H2 & H3 & H4 & _ & H5 & H6 & H7).
  exists failed, blank. repeat split; assumption.
Defined.

(** The risk prompt ends with the text it was built from and contains the
    requested format. *)
Lemma riskPrompt_occurrences (text : js_string) :
  occurs_in text (riskPrompt text) /\ occurs_in risk_format (riskPrompt text).
Proof.
  split.
  - exists (riskPrompt []), []. rewrite app_nil_r. reflexivity.
  - exists (line "You are a legal risk analysis expert."
            ++ line ""
            ++ line "Analyze the following legal document and generate a clear risk assessment."
            ++ line ""
            ++ line "Follow this EXACT structured format:"
            ++ line "").
    exists ([LF]
            ++ line ""
            ++ line "Example:"
            ++ line "- Risk Item: Ambiguous Payment Terms"
            ++ line "  Description: Payment due dates are unclear, which may cause disputes between parties."
            ++ line "  Severity: Medium"
            ++ line ""
            ++ line "Now analyze this document:"
            ++ line ""
            ++ text).
    reflexivity.
Qed.

(** C9.  The third generation request of a request carries the risk prompt
    built from the extracted text; that text is not empty, occurs in the
    prompt as it is, and the prompt asks for the format with the entries
    [Risk Item], [Description] and [Severity]. *)
Theorem risk_prompt_embeds_text (env : environment) (w : world) (a : app)
    (tr0 : list event) (req : request) (b : generate_request) :
  load_module env w [] = (Returns a, tr0) ->
  nth_error (generate_requests (calls a req w)) 2 = Some b ->
  exists r,
    In (Returns r) (process_results (calls a req w)) /\
    let text := document_text r in
    text <> [] /\
    b = reqBody (riskPrompt text) /\
    occurs_in text (riskPrompt text) /\
    occurs_in risk_format (riskPrompt text) /\
    occurs_in (lit "Risk Item") risk_format /\
    occurs_in (lit "Description") risk_format /\
    occurs_in (lit "Severity") risk_format.
Proof.
  intros Hload Hnth.
  destruct (upload_cases _ _ w _ _ req Hload) as (client & gm & resp & _ & Hr & P).
  assert (Hfmt : occurs_in (lit "Risk Item") risk_format /\
                 occurs_in (lit "Description") risk_format /\
                 occurs_in (lit "Severity") risk_format).
  { repeat split; apply includes_spec; reflexivity. }
  split_path P; read_trace;
    exists r; (split; [left; reflexivity|]); cbn zeta;
    (split; [intros Hnil; apply Htext; rewrite Hnil; reflexivity|]);
    (split; [reflexivity|]);
    destruct (riskPrompt_occurrences (document_text r)); tauto.
Qed.

Lemma risk_prompt_embeds_text_witness :
  nth_error
    (generate_requests (calls Samples.loaded_app Samples.pdf_request Samples.healthy)) 2
    = Some (reqBody (riskPrompt (lit "Tenant shall pay rent by the 1st."))) /\
  includes (riskPrompt (lit "Tenant shall pay rent by the 1st."))
    (lit "Tenant shall pay rent by the 1st.") = true /\
  occurs_in risk_format (riskPrompt (lit "Tenant shall pay rent by the 1st.")).
Proof.
  split; [reflexivity|].
  split; [reflexivity|].
  destruct (risk_prompt_embeds_text
              (Samples.env_with (Some Samples.key_blob)) Samples.healthy
              Samples.loaded_app _ Samples.pdf_request
              (reqBody (riskPrompt (lit "Tenant shall pay rent by the 1st.")))
              eq_refl eq_refl)
    as (r & Hin & _ & Hb & _ & Hfmt & _).
  assert (Hr : document_text r = lit "Tenant shall pay rent by the 1st.").
  { destruct Hin as [Hin | []]. injection Hin as <-. reflexivity. }
  rewrite Hr in Hfmt. exact Hfmt.
Defined.

(** C10.  Changing [VERTEX_MODEL] in the environment changes nothing in
    how an upload request is handled: same reply, same remote calls; every
    generation call goes to the model [gemini-2.5-flash-lite]; the variable
    shows only in the [vertexModel] field of the ping reply. *)
Theorem vertex_model_only_in_ping (env : environment) (v : option js_string)
    (w : world) (a : app) (tr0 : list event) (req : request) :
  load_module env w [] = (Returns a, tr0) ->
  exists a',
    load_module (with_VERTEX_MODEL env v) w [] = (Returns a', tr0) /\
    upload a' req w [] = upload a req w [] /\
    Forall (eq (lit "gemini-2.5-flash-lite")) (generate_models (calls a req w)) /\
    Forall (eq (lit "gemini-2.5-flash-lite")) (generate_models (calls a' req w)) /\
    ping a =
      res_json
        [ ("status", VString (lit "ok"));
          ("project", VString (PROJECT_ID a));
          ("vertexModel",
           VString (or_string (env_VERTEX_MODEL env) (lit "gemini-2.5-flash-lite"))) ]%string /\
    ping a' =
      res_json
        [ ("status", VString (lit "ok"));
          ("project", VString (PROJECT_ID a));
          ("vertexModel", VString (or_string v (lit "gemini-2.5-flash-lite"))) ]%string.
Proof.
  intros Hload.
  destruct (load_module_vertex_model env v w [] tr0 a Hload)
    as (a' & Hload' & Hp & Hpr & Hc & Hd & Hm & Hv).
  destruct (load_module_inv _ _ _ _ _ Hload)
    as (_ & _ & _ & _ & _ & _ & _ & Hva & _).
  exists a'. split; [exact Hload'|].
  assert (Hup : upload a' req = upload a req) by (now apply upload_ext).
  split; [now rewrite Hup|].
  assert (Hmodels :
    Forall (eq (lit "gemini-2.5-flash-lite")) (generate_models (calls a req w))).
  { destruct (upload_cases _ _ w _ _ req Hload)
      as (client & gm & resp & Hn & _ & P).
    split_path P; read_trace; try rewrite Hn; repeat constructor. }
  split; [exact Hmodels|].
  split; [unfold calls in *; now rewrite Hup|].
  unfold ping. rewrite Hva, Hv, Hp. split; reflexivity.
Qed.

Lemma vertex_model_only_in_ping_witness :
  exists a',
    load_module
      (with_VERTEX_MODEL (Samples.env_with (Some Samples.key_blob))
         (Some (lit "gemini-1.5-pro")))
      Samples.healthy [] =
    (Returns a',
     [ParseCall Samples.key_blob (Returns Samples.key_object);
      VertexInit
        {| vo_project := lit "genai-471818";
           vo_location := lit "us-central1";
           vo_googleAuthOptions := Some Samples.key_object |} None]) /\
    upload a' Samples.pdf_request Samples.healthy [] =
    upload Samples.loaded_app Samples.pdf_request Samples.healthy [] /\
    generate_models (calls a' Samples.pdf_request Samples.healthy) =
      [lit "gemini-2.5-flash-lite"; lit "gemini-2.5-flash-lite";
       lit "gemini-2.5-flash-lite"] /\
    get_prop "vertexModel" (body (ping a')) = Some (VString (lit "gemini-1.5-pro")) /\
    get_prop "vertexModel" (body (ping Samples.loaded_app))
      = Some (VString (lit "gemini-2.5-flash-lite")).
Proof.
  destruct (vertex_model_only_in_ping
              (Samples.env_with (Some Samples.key_blob))
              (Some (lit "gemini-1.5-pro")) Samples.healthy
              Samples.loaded_app _ Samples.pdf_request eq_refl)
    as (a' & Hload & Hup & _ & _ & _ & Hping).
  exists a'. split; [exact Hload|]. split; [exact Hup|].
  split; [unfold calls; rewrite Hup; reflexivity|].
  split; [rewrite Hping; reflexivity | reflexivity].
Defined.

End PipelineFacts.

(* ================================================================== *)
(** * The module bindings                                               *)
(* ================================================================== *)

Section BindingFacts.

Import Server.

Lemma or_string_nonempty (s : option js_string) (d : js_string) :
  d <> [] -> or_string s d <> [].
Proof.
  intros Hd. destruct s as [[|c r]|]; simpl; congruence.
Qed.

(** Everything a loaded module binds, in terms of the environment and the
    parsed credentials. *)
Lemma load_module_bindings (env : environment) (w : world)
    (tr0 tr : list event) (a : app) :
  load_module env w tr0 = (Returns a, tr) ->
  exists creds tr1,
    load_credentials env w tr0 = (Returns creds, tr1) /\
    let project := or_string (env_PROJECT_ID env) (lit "genai-471818") in
    let opts :=
      {| vo_project := project;
         vo_location := VERTEX_LOCATION;
         vo_googleAuthOptions := if to_boolean creds then Some creds else None |} in
    new_VertexAI w opts = None /\
    tr = tr1 ++ [VertexInit opts None] /\
    a = {| PROJECT_ID := project;
           PROCESSOR_ID := or_string (env_PROCESSOR_ID env) (lit "54be1a4c93565429");
           VERTEX_MODEL := or_string (env_VERTEX_MODEL env) (lit "gemini-2.5-flash-lite");
           credentials := creds;
           documentai :=
             Some {| da_version := lit "v1";
                     da_auth :=
                       {| auth_credentials := js_or creds VUndefined;
                          auth_projectId := project;
                          auth_scopes :=
                            [lit "https://www.googleapis.com/auth/cloud-platform"] |} |};
           model := Some {| gm_client := opts; gm_model := lit "gemini-2.5-flash-lite" |} |}.
Proof.
  unfold load_module, bind.
  destruct (load_credentials env w tr0) as [[creds|e] tr1] eqn:E; [|discriminate].
  unfold try_catch, bind, construct_vertex, ret, throw.
  destruct (new_VertexAI w _) as [e|] eqn:Ev; [discriminate|].
  intros H. injection H as <- <-.
  exists creds, tr1. split; [reflexivity|]. cbn zeta.
  split; [exact Ev|]. split; reflexivity.
Qed.

(** When the [VertexAI] constructor throws, the [catch] of lines 80-83
    leaves [vertexAI] at [null] and line 86 throws: the module does not
    load.  When it does not throw, the module loads. *)
Theorem load_module_needs_vertex (env : environment) (w : world)
    (creds : value) (tr1 : list event) :
  load_credentials env w [] = (Returns creds, tr1) ->
  let opts :=
    {| vo_project := or_string (env_PROJECT_ID env) (lit "genai-471818");
       vo_location := VERTEX_LOCATION;
       vo_googleAuthOptions := if to_boolean creds then Some creds else None |} in
  (forall e,
     new_VertexAI w opts = Some e ->
     load_module env w [] =
     (Throws (TypeError "Cannot read properties of null (reading 'getGenerativeModel')"),
      tr1 ++ [VertexInit opts (Some e)])) /\
  (new_VertexAI w opts = None ->
     exists a,
       load_module env w [] = (Returns a, tr1 ++ [VertexInit opts None]) /\
       credentials a = creds).
Proof.
  intros Hc opts.
  unfold load_module, bind. rewrite Hc.
  unfold try_catch, bind, construct_vertex, ret, throw. fold opts.
  split.
  - intros e ->. reflexivity.
  - intros ->. eexists. split; reflexivity.
Qed.

Lemma load_module_needs_vertex_witness :
  load_module (Samples.env_with (Some Samples.key_blob))
    (MoreSamples.with_failing_VertexAI Samples.socket_hang_up Samples.healthy) [] =
  (Throws (TypeError "Cannot read properties of null (reading 'getGenerativeModel')"),
   [ParseCall Samples.key_blob (Returns Samples.key_object);
    VertexInit
      {| vo_project := lit "genai-471818";
         vo_location := lit "us-central1";
         vo_googleAuthOptions := Some Samples.key_object |}
      (Some Samples.socket_hang_up)]).
Proof.
  exact (proj1 (load_module_needs_vertex
                  (Samples.env_with (Some Samples.key_blob))
                  (MoreSamples.with_failing_VertexAI Samples.socket_hang_up
                     Samples.healthy)
                  Samples.key_object
                  [ParseCall Samples.key_blob (Returns Samples.key_object)]
                  eq_refl)
           Samples.socket_hang_up eq_refl).
Defined.

(** Both clients are built from the same credentials: the parsed value
    when it is truthy, none ([undefined], no [googleAuthOptions]) when it is
    falsy. *)
Theorem clients_share_credentials (env : environment) (w : world)
    (a : app) (tr0 : list event) :
  load_module env w [] = (Returns a, tr0) ->
  exists client gm,
    documentai a = Some client /\
    model a = Some gm /\
    (if to_boolean (credentials a)
     then auth_credentials (da_auth client) = credentials a /\
          vo_googleAuthOptions (gm_client gm) = Some (credentials a)
     else auth_credentials (da_auth client) = VUndefined /\
          vo_googleAuthOptions (gm_client gm) = None).
Proof.
  intros Hload.
  destruct (load_module_bindings _ _ _ _ _ Hload)
    as (creds & tr1 & _ & _ & _ & ->).
  eexists _, _. split; [reflexivity|]. split; [reflexivity|].
  cbn [credentials da_auth auth_credentials gm_client vo_googleAuthOptions].
  unfold js_or. destruct (to_boolean creds); split; reflexivity.
Qed.

Lemma clients_share_credentials_witness :
  exists client gm,
    documentai MoreSamples.zero_app = Some client /\
    model MoreSamples.zero_app = Some gm /\
    auth_credentials (da_auth client) = VUndefined /\
    vo_googleAuthOptions (gm_client gm) = None.
Proof.
  destruct (clients_share_credentials
              (Samples.env_with (Some (lit "0"))) MoreSamples.lenient
              MoreSamples.zero_app _ eq_refl)
    as (client & gm & Hc & Hm & H).
  exists client, gm. split; [exact Hc|]. split; [exact Hm|]. exact H.
Defined.

(** Every extraction call of a loaded module names the processor
    [projects/<project>/locations/us/processors/<processor>], where neither
    identifier is empty: an unset or empty variable gives way to the
    default, any other value is used as it is. *)
Theorem processor_name_well_formed (env : environment) (w : world)
    (a : app) (tr0 : list event) (req : request)
    (client : documentai_client) (params : process_params)
    (o : outcome process_result) :
  load_module env w [] = (Returns a, tr0) ->
  In (ProcessCall client params o) (calls a req w) ->
  exists project processor,
    name params =
      lit "projects/" ++ project ++ lit "/locations/us/processors/" ++ processor /\
    project <> [] /\
    processor <> [] /\
    (env_PROJECT_ID env = None \/ env_PROJECT_ID env = Some [] ->
     project = lit "genai-471818") /\
    (env_PROCESSOR_ID env = None \/ env_PROCESSOR_ID env = Some [] ->
     processor = lit "54be1a4c93565429") /\
    (forall p, p <> [] -> env_PROJECT_ID env = Some p -> project = p) /\
    (forall p, p <> [] -> env_PROCESSOR_ID env = Some p -> processor = p).
Proof.
  intros Hload Hin.
  assert (Hname : name params =
            lit "projects/" ++ PROJECT_ID a ++ lit "/locations/us/processors/"
            ++ PROCESSOR_ID a).
  { destruct (upload_cases _ _ w _ _ req Hload)
      as (client' & gm & resp & _ & _ & P).
    split_path P; unfold extraction, generation in *; cbn [In] in Hin;
      repeat match goal with
        | H : _ \/ _ |- _ => destruct H
        | H : False |- _ => destruct H
        | H : GenerateCall _ _ _ = ProcessCall _ _ _ |- _ => discriminate H
        | H : ProcessCall _ _ _ = ProcessCall _ _ _ |- _ =>
            injection H as <- <- <-
        end;
      reflexivity. }
  exists (PROJECT_ID a), (PROCESSOR_ID a).
  split; [exact Hname|]. clear Hname Hin.
  destruct (load_module_bindings _ _ _ _ _ Hload)
    as (creds & tr1 & _ & _ & _ & ->).
  cbn [PROJECT_ID PROCESSOR_ID].
  split; [apply or_string_nonempty; discriminate|].
  split; [apply or_string_nonempty; discriminate|].
  split; [intros [-> | ->]; reflexivity|].
  split; [intros [-> | ->]; reflexivity|].
  split; intros p Hp ->; (destruct p; [congruence | reflexivity]).
Qed.

Lemma processor_name_well_formed_witness :
  exists client o rest,
    calls Samples.loaded_app Samples.pdf_request Samples.healthy =
    ProcessCall client
      {| name :=
           lit "projects/genai-471818/locations/us/processors/54be1a4c93565429";
         requestBody :=
           {| rawDocument :=
                {| content := lit "JVBERg=="; mimeType := lit "application/pdf" |} |} |}
      o :: rest /\
    exists project processor,
      lit "projects/genai-471818/locations/us/processors/54be1a4c93565429" =
        lit "projects/" ++ project ++ lit "/locations/us/processors/" ++ processor /\
      project <> [] /\ processor <> [].
Proof.
  eexists _, _, _. split; [reflexivity|].
  destruct (processor_name_well_formed
              {| env_PROJECT_ID := Some [];
                 env_PROCESSOR_ID := None;
                 env_VERTEX_MODEL := None;
                 env_GOOGLE_CREDENTIALS := Some Samples.key_blob |}
              Samples.healthy Samples.loaded_app _ Samples.pdf_request
              _ _ _ eq_refl (or_introl eq_refl))
    as (project & processor & Hn & Hp & Hq & _).
  exists project, processor. split; [exact Hn|]. split; assumption.
Defined.

End BindingFacts.

(* ================================================================== *)
(** * What the first copy answers, and in which order it calls          *)
(* ================================================================== *)

Section AnswerFacts.

Import Server.



(** The remote calls of one request: at most one extraction call and at
    most three generation calls, nothing else; a failed extraction is
    followed by no generation call; a generation call is made only after an
    extraction that returned text which is not blank, and that extraction
    is the first call; only the last generation call can have thrown. *)
Theorem upload_call_order (env : environment) (w : world) (a : app)
    (tr0 : list event) (req : request) :
  load_module env w [] = (Returns a, tr0) ->
  let tr := calls a req w in
  List.length (process_results tr) <= 1 /\
  List.length (generate_results tr) <= 3 /\
  List.length tr =
    List.length (process_results tr) + List.length (generate_results tr) /\
  (forall e, In (Throws e) (process_results tr) -> generate_results tr = []) /\
  (generate_results tr <> [] ->
   exists client params r rest,
     tr = ProcessCall client params (Returns r) :: rest /\
     trim (document_text r) <> []) /\
  Forall returned (removelast (generate_results tr)).
Proof.
  intros Hload tr. subst tr.
  destruct (upload_cases _ _ w _ _ req Hload) as (client & gm & resp & _ & _ & P).
  split_path P; read_trace; cbn [List.length removelast];
    repeat split; try lia; try congruence;
    try (intros e' He'; read_trace; reflexivity);
    try (intros _; eexists _, _, _, _; split; [reflexivity | assumption]);
    repeat constructor.
Qed.

Lemma upload_call_order_witness :
  List.length
    (calls Samples.loaded_app Samples.pdf_request
       (Samples.scripted (Samples.extracted Samples.lease_text)
          [ Samples.generated (lit "Rent is due monthly.");
            Throws Samples.permission_denied ])) = 3 /\
  Forall returned
    (removelast
       (generate_results
          (calls Samples.loaded_app Samples.pdf_request
             (Samples.scripted (Samples.extracted Samples.lease_text)
                [ Samples.generated (lit "Rent is due monthly.");
                  Throws Samples.permission_denied ])))).
Proof.
  split; [reflexivity|].
  apply (upload_call_order
           (Samples.env_with (Some Samples.key_blob))
           (Samples.scripted (Samples.extracted Samples.lease_text)
              [ Samples.generated (lit "Rent is due monthly.");
                Throws Samples.permission_denied ])
           Samples.loaded_app _ Samples.pdf_request eq_refl).
Defined.

(** The generation requests of a request are an initial part of the three
    requests for the extracted text, in their fixed order: the key-terms
    prompt is never sent before the summary prompt, nor the risk prompt
    before the key-terms prompt. *)
Theorem upload_generation_requests_prefix (env : environment) (w : world)
    (a : app) (tr0 : list event) (req : request) :
  load_module env w [] = (Returns a, tr0) ->
  generate_requests (calls a req w) = [] \/
  exists r n,
    In (Returns r) (process_results (calls a req w)) /\
    generate_requests (calls a req w) =
    firstn n
      [ reqBody (summaryPrompt (document_text r));
        reqBody (keyTermsPrompt (document_text r));
        reqBody (riskPrompt (document_text r)) ].
Proof.
  intros Hload.
  destruct (upload_cases _ _ w _ _ req Hload) as (client & gm & resp & _ & _ & P).
  split_path P; read_trace; try (left; reflexivity); right; exists r.
  - exists 1. split; [left|]; reflexivity.
  - exists 2. split; [left|]; reflexivity.
  - exists 3. split; [left|]; reflexivity.
  - exists 3. split; [left|]; reflexivity.
Qed.

Lemma upload_generation_requests_prefix_witness :
  generate_requests
    (calls Samples.loaded_app Samples.pdf_request
       (Samples.scripted (Samples.extracted Samples.lease_text)
          [ Samples.generated (lit "Rent is due monthly.");
            Throws Samples.permission_denied ])) =
  [ reqBody (summaryPrompt Samples.lease_text);
    reqBody (keyTermsPrompt Samples.lease_text) ].
Proof.
  destruct (upload_generation_requests_prefix
              (Samples.env_with (Some Samples.key_blob))
              (Samples.scripted (Samples.extracted Samples.lease_text)
                 [ Samples.generated (lit "Rent is due monthly.");
                   Throws Samples.permission_denied ])
              Samples.loaded_app _ Samples.pdf_request eq_refl)
    as [H | (r & n & Hin & H)].
  - discriminate H.
  - reflexivity.
Defined.

(** In a 200 reply no field is the empty string: [text] is the extracted
    text as it came (not trimmed), and an empty generated text gives way to
    the placeholder. *)
Theorem upload_ok_fields_nonempty (env : environment) (w : world) (a : app)
    (tr0 : list event) (req : request) (resp : response) :
  load_module env w [] = (Returns a, tr0) ->
  reply a req w = Returns resp ->
  status resp = 200%N ->
  exists r summary keyTerms riskAssessment,
    In (Returns r) (process_results (calls a req w)) /\
    resp = analysis_reply (document_text r) summary keyTerms riskAssessment /\
    document_text r <> [] /\
    summary <> [] /\ keyTerms <> [] /\ riskAssessment <> [].
Proof.
  intros Hload Hresp Hstatus.
  destruct (upload_cases _ _ w _ _ req Hload) as (client & gm & resp' & _ & Hr & P).
  rewrite Hr in Hresp. injection Hresp as <-.
  split_path P; read_trace; try discriminate Hstatus.
  exists r, (generated_field Summary r1), (generated_field KeyTerms r2),
    (generated_field Risk r3).
  split; [left; reflexivity|]. split; [reflexivity|].
  split; [intros Hnil; apply Htext; rewrite Hnil; reflexivity|].
  unfold generated_field.
  repeat split; apply or_string_nonempty; discriminate.
Qed.

Lemma upload_ok_fields_nonempty_witness :
  exists r summary keyTerms riskAssessment,
    In (Returns r)
      (process_results
         (calls Samples.loaded_app Samples.pdf_request
            (Samples.scripted (Samples.extracted ([32] ++ Samples.lease_text)%N)
               [ Samples.generated []; Samples.generated (lit " ");
                 Samples.no_candidates ]))) /\
    analysis_reply ([32] ++ Samples.lease_text)%N (lit "Summary not generated")
      (lit " ") (lit "Risk assessment not generated") =
    analysis_reply (document_text r) summary keyTerms riskAssessment /\
    document_text r <> [] /\
    summary <> [] /\ keyTerms <> [] /\ riskAssessment <> [].
Proof.
  exact (upload_ok_fields_nonempty
           (Samples.env_with (Some Samples.key_blob))
           (Samples.scripted (Samples.extracted ([32] ++ Samples.lease_text)%N)
              [ Samples.generated []; Samples.generated (lit " ");
                Samples.no_candidates ])
           Samples.loaded_app _ Samples.pdf_request
           (analysis_reply ([32] ++ Samples.lease_text)%N (lit "Summary not generated")
              (lit " ") (lit "Risk assessment not generated"))
           eq_refl eq_refl eq_refl).
Defined.

(** When no generation call throws, a generated text that is not empty is
    returned as it is, white space included; the empty text is replaced by
    the placeholder of its call site. *)
Theorem upload_generated_text_verbatim (env : environment) (w : world) (a : app)
    (tr0 : list event) (req : request) (c : call_site)
    (r : option generate_result) (t : js_string) :
  load_module env w [] = (Returns a, tr0) ->
  nth_error (generate_results (calls a req w)) (site_index c)
    = Some (Returns r) ->
  first_candidate_text r = Some t ->
  Forall returned (generate_results (calls a req w)) ->
  exists resp,
    reply a req w = Returns resp /\
    status resp = 200%N /\
    get_prop (site_field c) (body resp) =
      Some (VString (match t with [] => site_placeholder c | _ :: _ => t end)).
Proof.
  intros Hload Hnth Htext Hgen.
  destruct (upload_cases _ _ w _ _ req Hload) as (client & gm & resp & _ & Hr & P).
  rewrite Hr. exists resp. split; [reflexivity|].
  split_path P; destruct c; read_trace;
    (split; [reflexivity|]);
    unfold generated_field; rewrite Htext; destruct t; reflexivity.
Qed.

Lemma upload_generated_text_verbatim_witness :
  exists resp,
    reply Samples.loaded_app Samples.pdf_request
      (Samples.scripted (Samples.extracted Samples.lease_text)
         [ Samples.generated []; Samples.generated (lit " ");
           Samples.no_candidates ])
    = Returns resp /\
    status resp = 200%N /\
    get_prop "keyTerms" (body resp) = Some (VString (lit " ")).
Proof.
  refine (upload_generated_text_verbatim
            (Samples.env_with (Some Samples.key_blob))
            (Samples.scripted (Samples.extracted Samples.lease_text)
               [ Samples.generated []; Samples.generated (lit " ");
                 Samples.no_candidates ])
            Samples.loaded_app _ Samples.pdf_request KeyTerms _ (lit " ")
            eq_refl eq_refl eq_refl _).
  vm_compute. repeat constructor.
Defined.

End AnswerFacts.

(* ================================================================== *)
(** * The guards of the first copy                                      *)
(* ================================================================== *)

Section GuardEdgeFacts.

Import Server.

(** The credentials guard tests truthiness only.  Whatever truthy value
    the blob parsed to, complete or not, a request with a file goes on to
    the extraction call, made with a client that carries that value, for the
    file's bytes in base64 and its MIME type. *)
Theorem upload_truthy_credentials_reach_extraction (env : environment)
    (w : world) (a : app) (tr0 : list event) (req : request) (f : uploaded_file) :
  load_module env w [] = (Returns a, tr0) ->
  to_boolean (credentials a) = true ->
  file req = Some f ->
  exists client o rest,
    calls a req w = ProcessCall client (process_params_of a f) o :: rest /\
    auth_credentials (da_auth client) = credentials a /\
    content (rawDocument (requestBody (process_params_of a f))) = base64 (buffer f) /\
    mimeType (rawDocument (requestBody (process_params_of a f))) = mimetype f.
Proof.
  intros Hload Hcreds Hfile.
  destruct (load_module_bindings _ _ _ _ _ Hload)
    as (creds & tr1 & _ & _ & _ & Ha).
  cbn zeta in Ha.
  assert (Hd : exists client,
             documentai a = Some client /\
             auth_credentials (da_auth client) = js_or (credentials a) VUndefined).
  { rewrite Ha. eexists. split; reflexivity. }
  assert (Hm : exists gm, model a = Some gm).
  { rewrite Ha. eexists. reflexivity. }
  destruct Hd as (client & Hd & Hauth). destruct Hm as (gm & Hm).
  destruct (upload_sound w a client gm req Hd Hm) as (resp & tr & E & P).
  unfold calls. rewrite E. cbn [snd].
  unfold js_or in Hauth. rewrite Hcreds in Hauth.
  assert (Hf : forall f', file req = Some f' -> f' = f) by congruence.
  destruct P;
    repeat match goal with
      | H : extracted_text _ _ _ _ _ _ |- _ => destruct H as (? & ? & ? & ?)
      end;
    try congruence;
    match goal with
    | H : file req = Some ?f' |- _ => rewrite (Hf f' H) in *
    end;
    unfold extraction; eexists client, _, _; repeat split; eauto.
Qed.

Lemma upload_truthy_credentials_reach_extraction_witness :
  exists client o rest,
    calls MoreSamples.keyless_app Samples.pdf_request MoreSamples.lenient =
    ProcessCall client
      (process_params_of MoreSamples.keyless_app
         {| originalname := lit "lease.pdf"; mimetype := lit "application/pdf";
            size := 4; buffer := [37; 80; 68; 70]%N |}) o :: rest /\
    auth_credentials (da_auth client) = VObject [].
Proof.
  destruct (upload_truthy_credentials_reach_extraction
              (Samples.env_with (Some (lit "{}"))) MoreSamples.lenient
              MoreSamples.keyless_app _ Samples.pdf_request _
              eq_refl eq_refl eq_refl)
    as (client & o & rest & Hc & Ha & _).
  exists client, o, rest. split; [exact Hc | exact Ha].
Defined.

(** A blob that parses to a falsy value ([null], [0], [false], the empty
    string) leaves the server as misconfigured as a blob that does not
    parse: a request with a file is answered 500 and nothing is called. *)
Theorem upload_rejected_with_falsy_credentials (env : environment) (w : world)
    (a : app) (tr0 : list event) (req : request) (f : uploaded_file) :
  load_module env w [] = (Returns a, tr0) ->
  to_boolean (credentials a) = false ->
  file req = Some f ->
  reply a req w =
    Returns (error_reply 500 "Server misconfigured: missing credentials") /\
  calls a req w = [].
Proof.
  intros Hload Hfalsy Hfile.
  destruct (upload_cases _ _ w _ _ req Hload) as (client & gm & resp & _ & Hr & P).
  rewrite Hr.
  split_path P; try congruence. auto.
Qed.

Lemma upload_rejected_with_falsy_credentials_witness :
  load_credentials (Samples.env_with (Some (lit "0"))) MoreSamples.lenient [] =
    (Returns (VNumber (S754_zero false)),
     [ParseCall (lit "0") (Returns (VNumber (S754_zero false)))]) /\
  reply MoreSamples.zero_app Samples.pdf_request MoreSamples.lenient =
    Returns (error_reply 500 "Server misconfigured: missing credentials") /\
  calls MoreSamples.zero_app Samples.pdf_request MoreSamples.lenient = [].
Proof.
  split; [reflexivity|].
  exact (upload_rejected_with_falsy_credentials
           (Samples.env_with (Some (lit "0"))) MoreSamples.lenient
           MoreSamples.zero_app _ Samples.pdf_request _
           eq_refl eq_refl eq_refl).
Defined.

(** After an extraction that returned, the reply is the 400 of the blank
    document exactly when every code unit of the extracted text is white
    space (none at all included). *)
Theorem upload_blank_iff_white_space (env : environment) (w : world) (a : app)
    (tr0 : list event) (req : request) (r : process_result) :
  load_module env w [] = (Returns a, tr0) ->
  In (Returns r) (process_results (calls a req w)) ->
  (reply a req w =
     Returns (error_reply 400 "Document contained no extractable text.")
   <-> forallb is_white_space (document_text r) = true).
Proof.
  intros Hload Hin.
  destruct (upload_cases _ _ w _ _ req Hload) as (client & gm & resp & _ & Hr & P).
  rewrite Hr. rewrite <- trim_nil.
  split_path P; read_trace.
  - split; [intros _; assumption | reflexivity].
  - split; [|congruence]. intros Heq. vm_compute in Heq. discriminate Heq.
  - split; [|congruence]. intros Heq. vm_compute in Heq. discriminate Heq.
  - split; [|congruence]. intros Heq. vm_compute in Heq. discriminate Heq.
  - split; [|congruence]. intros Heq. vm_compute in Heq. discriminate Heq.
Qed.

Lemma upload_blank_iff_white_space_witness :
  reply Samples.loaded_app Samples.pdf_request
    (Samples.scripted (Samples.extracted [65279; 8232; 12288]%N) []) =
  Returns (error_reply 400 "Document contained no extractable text.").
Proof.
  apply (upload_blank_iff_white_space
           (Samples.env_with (Some Samples.key_blob))
           (Samples.scripted (Samples.extracted [65279; 8232; 12288]%N) [])
           Samples.loaded_app _ Samples.pdf_request
           {| data := {| data_document :=
                Some {| doc_text := Some [65279; 8232; 12288]%N |} |} |}
           eq_refl (or_introl eq_refl)).
  reflexivity.
Defined.

(** An extraction answer without a document, or with a document without
    text, is handled as a blank document: 400, no generation call, no
    exception. *)
Theorem upload_missing_document_text (env : environment) (w : world) (a : app)
    (tr0 : list event) (req : request) (r : process_result) :
  load_module env w [] = (Returns a, tr0) ->
  In (Returns r) (process_results (calls a req w)) ->
  data_document (data r) = None \/
  data_document (data r) = Some {| doc_text := None |} ->
  reply a req w =
    Returns (error_reply 400 "Document contained no extractable text.") /\
  generate_results (calls a req w) = [].
Proof.
  intros Hload Hin Hdoc.
  assert (Ht : trim (document_text r) = []).
  { unfold document_text. destruct Hdoc as [-> | ->]; reflexivity. }
  destruct (upload_cases _ _ w _ _ req Hload) as (client & gm & resp & _ & Hr & P).
  rewrite Hr.
  clear Hdoc.
  split_path P; read_trace; try congruence.
  split; reflexivity.
Qed.

Lemma upload_missing_document_text_witness :
  reply Samples.loaded_app Samples.pdf_request
    (Samples.scripted MoreSamples.no_document []) =
    Returns (error_reply 400 "Document contained no extractable text.") /\
  generate_results
    (calls Samples.loaded_app Samples.pdf_request
       (Samples.scripted MoreSamples.no_document [])) = [].
Proof.
  exact (upload_missing_document_text
           (Samples.env_with (Some Samples.key_blob))
           (Samples.scripted MoreSamples.no_document [])
           Samples.loaded_app _ Samples.pdf_request
           {| data := {| data_document := None |} |}
           eq_refl (or_introl eq_refl) (or_introl eq_refl)).
Defined.

(** With [GOOGLE_CREDENTIALS] unset and [JSON.parse] refusing the text
    [undefined], the start-up parses once and then answers every request
    with a file as misconfigured. *)
Lemma load_credentials_unset_witness :
  load_credentials (Samples.env_with None) Samples.healthy [] =
  (Returns VNull, [ParseCall (lit "undefined") (Throws Samples.SyntaxError)]).
Proof.
  exact (load_credentials_unset (Samples.env_with None) Samples.healthy
           Samples.SyntaxError eq_refl eq_refl).
Defined.

End GuardEdgeFacts.

(* ================================================================== *)
(** * Texts: the repair, the prompts, the encoding                      *)
(* ================================================================== *)

Section TextFacts.

Import Server.

Lemma replace_escaped_newlines_length (s : js_string) :
  List.length (replace_escaped_newlines s) <= List.length s.
Proof.
  induction s as [| c | c d r IHr IHdr] using list_pair_ind.
  - reflexivity.
  - reflexivity.
  - rewrite replace_escaped_newlines_step.
    destruct ((c =? BACKSLASH) && (d =? LOWER_N))%N; cbn [List.length] in *; lia.
Qed.

(** The repair of lines 41 and 233 can be applied again without effect, it
    never makes the text longer, and it shortens a text by one code unit for
    a pair at its front. *)
Theorem replace_escaped_newlines_idempotent (s : js_string) :
  replace_escaped_newlines (replace_escaped_newlines s)
    = replace_escaped_newlines s /\
  List.length (replace_escaped_newlines s) <= List.length s /\
  (includes s [BACKSLASH; LOWER_N] = true ->
   List.length (replace_escaped_newlines s) < List.length s).
Proof.
  split; [|split].
  - apply replace_escaped_newlines_id, replace_escaped_newlines_complete.
  - apply replace_escaped_newlines_length.
  - intros H. apply includes_spec in H. destruct H as (pre & post & ->).
    rewrite replace_escaped_newlines_app.
    rewrite !length_app. cbn [List.length].
    pose proof (replace_escaped_newlines_length pre).
    pose proof (replace_escaped_newlines_length post).
    lia.
Qed.

(** Each prompt is a fixed preamble followed by the document text as it
    is, so two documents get the same prompt only when they are the same. *)
Theorem prompts_end_with_text (c : call_site) (text text' : js_string) :
  site_prompt c text = site_prompt c [] ++ text /\
  (site_prompt c text = site_prompt c text' -> text = text').
Proof.
  assert (E : forall t, site_prompt c t = site_prompt c [] ++ t).
  { intros t. destruct c; reflexivity. }
  split; [apply E|].
  rewrite (E text), (E text'). apply app_inv_head.
Qed.

Lemma list_triple_ind (A : Type) (P : list A -> Prop) :
  P [] ->
  (forall a, P [a]) ->
  (forall a b, P [a; b]) ->
  (forall a b c r, P r -> P (a :: b :: c :: r)) ->
  forall l, P l.
Proof.
  intros H0 H1 H2 H3 l.
  enough (P l /\ (forall a, P (a :: l)) /\ (forall a b, P (a :: b :: l))) by tauto.
  induction l as [|c r (IH0 & IH1 & IH2)].
  - auto.
  - split; [apply IH1|]. split; [intros a; apply IH2|].
    intros a b. apply H3. exact IH0.
Qed.

Lemma lor_below_64 (x y : N) : (x < 64 -> y < 64 -> N.lor x y < 64)%N.
Proof.
  intros Hx Hy.
  destruct (N.eq_dec (N.lor x y) 0) as [-> | Hz]; [reflexivity|].
  change 64%N with (2 ^ 6)%N.
  apply N.log2_lt_pow2; [lia|].
  rewrite N.log2_lor.
  destruct (N.eq_dec x 0) as [-> | Hx0]; destruct (N.eq_dec y 0) as [-> | Hy0];
    try (cbn; lia).
  - rewrite N.max_r by (cbn; lia).
    apply N.log2_lt_pow2; [lia | exact Hy].
  - rewrite N.max_l by (cbn; lia).
    apply N.log2_lt_pow2; [lia | exact Hx].
  - apply N.max_lub_lt; apply N.log2_lt_pow2; try lia; assumption.
Qed.

Lemma base64_digit_in_alphabet (i : N) :
  (i < 64)%N -> In (base64_digit i) base64_alphabet.
Proof.
  intros Hi. unfold base64_digit. apply nth_In.
  change (List.length base64_alphabet) with 64. lia.
Qed.

Lemma base64_sextets (a b : N) :
  (a < 256 -> b < 256 ->
   N.shiftr a 2 < 64 /\
   N.shiftl (N.land a 3) 4 < 64 /\
   N.shiftr b 4 < 64 /\
   N.shiftl (N.land b 15) 2 < 64 /\
   N.shiftr b 6 < 64 /\
   N.land b 63 < 64)%N.
Proof.
  intros Ha Hb.
  rewrite !N.shiftr_div_pow2, !N.shiftl_mul_pow2.
  change 3%N with (N.ones 2). change 15%N with (N.ones 4).
  change 63%N with (N.ones 6).
  rewrite !N.land_ones.
  change (2 ^ 2)%N with 4%N. change (2 ^ 4)%N with 16%N. change (2 ^ 6)%N with 64%N.
  pose proof (N.mod_lt a 4). pose proof (N.mod_lt b 16). pose proof (N.mod_lt b 64).
  repeat split; try (apply N.Div0.div_lt_upper_bound; lia); lia.
Qed.

(** [toString('base64')] of a buffer of bytes: four characters for every
    three bytes started, each a character of the base64 alphabet or the
    padding sign. *)
Theorem base64_shape (bytes : list N) :
  Forall (fun x => (x < 256)%N) bytes ->
  List.length (base64 bytes) = 4 * ((List.length bytes + 2) / 3) /\
  Forall (fun ch => In ch base64_alphabet \/ ch = PAD) (base64 bytes).
Proof.
  assert (digit : forall i, (i < 64)%N ->
            In (base64_digit i) base64_alphabet \/ base64_digit i = PAD).
  { intros i Hi. left. now apply base64_digit_in_alphabet. }
  assert (pad : In PAD base64_alphabet \/ PAD = PAD) by (right; reflexivity).
  induction bytes as [| a | a b | a b c r IH] using list_triple_ind; intros Hb.
  - split; [reflexivity | constructor].
  - inversion Hb as [|? ? Ha _]; subst.
    destruct (base64_sextets a a Ha Ha) as (H1 & H2 & _).
    split; [reflexivity|].
    cbn [base64].
    apply Forall_cons; [now apply digit|].
    apply Forall_cons; [now apply digit|].
    apply Forall_cons; [exact pad|].
    apply Forall_cons; [exact pad|].
    apply Forall_nil.
  - inversion Hb as [|? ? Ha Hb']; subst. inversion Hb' as [|? ? Hbb _]; subst.
    destruct (base64_sextets a b Ha Hbb) as (H1 & H2 & H3 & H4 & _).
    split; [reflexivity|].
    cbn [base64].
    apply Forall_cons; [now apply digit|].
    apply Forall_cons; [apply digit; now apply lor_below_64|].
    apply Forall_cons; [now apply digit|].
    apply Forall_cons; [exact pad|].
    apply Forall_nil.
  - inversion Hb as [|? ? Ha Hb']; subst. inversion Hb' as [|? ? Hbb Hb'']; subst.
    inversion Hb'' as [|? ? Hc Hr]; subst.
    destruct (IH Hr) as (IHlen & IHall).
    destruct (base64_sextets a b Ha Hbb) as (H1 & H2 & H3 & H4 & _).
    destruct (base64_sextets b c Hbb Hc) as (_ & _ & _ & _ & H5 & H6).
    change (base64 (a :: b :: c :: r))
      with (base64_digit (N.shiftr a 2)
            :: base64_digit (N.lor (N.shiftl (N.land a 3) 4) (N.shiftr b 4))
            :: base64_digit (N.lor (N.shiftl (N.land b 15) 2) (N.shiftr c 6))
            :: base64_digit (N.land c 63) :: base64 r).
    split.
    + cbn [List.length]. rewrite IHlen.
      replace (S (S (S (List.length r))) + 2) with (List.length r + 2 + 1 * 3) by lia.
      rewrite Nat.div_add by lia. lia.
    + apply Forall_cons; [now apply digit|].
      apply Forall_cons; [apply digit; now apply lor_below_64|].
      apply Forall_cons; [apply digit; now apply lor_below_64|].
      apply Forall_cons; [now apply digit|].
      exact IHall.
Qed.

Lemma base64_shape_witness :
  List.length (base64 [37; 80; 68; 70]%N) = 8 /\
  Forall (fun ch => In ch base64_alphabet \/ ch = PAD) (base64 [37; 80; 68; 70]%N).
Proof.
  apply (base64_shape [37; 80; 68; 70]%N).
  repeat (apply Forall_cons; [reflexivity|]). apply Forall_nil.
Defined.

End TextFacts.

(* ================================================================== *)
(** * The second copy                                                   *)
(* ================================================================== *)

Ltac split_path2 P :=
  let tr := fresh "tr" in
  let E := fresh "Etr" in
  match type of P with
  | second_copy_path _ _ _ _ ?t => remember t as tr eqn:E in *
  end;
  destruct P; clear E;
  repeat match goal with
    | H : extracted_text2 _ _ _ _ _ |- _ =>
        let Hf := fresh "Hfile" in
        let Hp := fresh "Hproc" in
        let Ht := fresh "Htext" in
        destruct H as (Hf & Hp & Ht)
    end.

Ltac read_trace2 :=
  unfold extraction2, summary2, keyTerms2, risk2 in *;
  read_trace.

Section SecondCopyFacts.

Lemma second_copy_sound (w : world) (a : ServerEnvKeys.app) (req : request) :
  exists resp,
    second_copy_reply a req w = Returns resp /\
    second_copy_path w a req resp (second_copy_calls a req w).
Proof.
  unfold second_copy_reply, second_copy_calls.
  cbv beta delta [ServerEnvKeys.upload ServerEnvKeys.response_text
                  try_catch bind ret throw].
  destruct (file req) as [f|] eqn:Hf.
  2:{ eexists. split; [reflexivity|]. now apply path2_no_file. }
  cbv beta iota zeta delta [process of_outcome ret throw fst snd].
  change {| name := _; requestBody := _ |} with (second_copy_params f).
  destruct (process_oracle w [] (ServerEnvKeys.documentai a) (second_copy_params f))
    as [r|e] eqn:Hp.
  2:{ eexists. split; [reflexivity|]. now apply path2_extraction_failed. }
  cbn [List.app].
  destruct (negb (to_boolean (VString (trim (document_text r))))) eqn:Ht.
  { apply to_boolean_string_trim in Ht.
    eexists. split; [reflexivity|]. now apply path2_no_text. }
  assert (Hx : extracted_text2 w a req f r).
  { repeat split; try assumption.
    intros Hn. apply to_boolean_string_trim in Hn. congruence. }
  cbv beta iota zeta delta [generateContent of_outcome ret throw].
  destruct (generate_oracle w _ (ServerEnvKeys.model a)
              (ServerEnvKeys.user_request (ServerEnvKeys.summaryPrompt _)))
    as [[r1|]|e] eqn:H1; cbn [List.app].
  2,3: eexists; (split; [reflexivity|]);
       eapply path2_summary_unusable; [exact Hx | exact H1 | exact I].
  destruct (generate_oracle w _ (ServerEnvKeys.model a)
              (ServerEnvKeys.user_request (ServerEnvKeys.keyTermsPrompt _)))
    as [[r2|]|e] eqn:H2; cbn [List.app].
  2,3: eexists; (split; [reflexivity|]);
       eapply path2_keyTerms_unusable; [exact Hx | exact H1 | exact H2 | exact I].
  destruct (generate_oracle w _ (ServerEnvKeys.model a)
              (ServerEnvKeys.user_request (ServerEnvKeys.riskPrompt _)))
    as [[r3|]|e] eqn:H3; cbn [List.app].
  2,3: eexists; (split; [reflexivity|]);
       eapply path2_risk_unusable;
       [exact Hx | exact H1 | exact H2 | exact H3 | exact I].
  eexists. split; [reflexivity|].
  now apply path2_answered.
Qed.

(** The second copy has three kinds of reply: the analysis, the 400 of
    the blank document, and one 500 for everything else; it never sends a
    [detail]. *)
Theorem second_copy_reply_taxonomy (a : ServerEnvKeys.app) (req : request)
    (w : world) :
  exists resp,
    second_copy_reply a req w = Returns resp /\
    (resp = error_reply 500 "Failed to analyze document" \/
     resp = error_reply 400 "Document contained no extractable text." \/
     exists text summary keyTerms riskAssessment,
       resp = analysis_reply text summary keyTerms riskAssessment) /\
    get_prop "detail" (body resp) = None.
Proof.
  destruct (second_copy_sound w a req) as (resp & Hr & P).
  exists resp. split; [exact Hr|].
  destruct P; (split; [eauto 8 | reflexivity]).
Qed.

(** In the second copy a missing file part, a failed extraction, a
    generation call that throws and a generation call that resolves to
    [undefined] all end in the same reply, 500 [Failed to analyze document]. *)
Theorem second_copy_failures_are_generic (a : ServerEnvKeys.app)
    (req : request) (w : world) :
  file req = None \/
  (exists e, In (Throws e) (process_results (second_copy_calls a req w))) \/
  Exists unusable (generate_results (second_copy_calls a req w)) ->
  second_copy_reply a req w =
    Returns (error_reply 500 "Failed to analyze document").
Proof.
  intros H.
  destruct (second_copy_sound w a req) as (resp & Hr & P).
  rewrite Hr.
  split_path2 P; try reflexivity; exfalso;
    destruct H as [H | [(e & H) | H]]; read_trace2; try congruence;
    repeat match goal with
      | H : Exists _ [] |- _ => inversion H
      | H : Exists _ (_ :: _) |- _ => inversion H; clear H; subst
      | H : unusable (Returns (Some _)) |- _ => destruct H
      end.
Qed.

Lemma second_copy_failures_are_generic_witness :
  second_copy_reply Samples.second_copy_app Samples.pdf_request
    (Samples.scripted (Samples.extracted Samples.lease_text)
       [ Samples.generated (lit "Rent is due monthly."); Returns None ]) =
  Returns (error_reply 500 "Failed to analyze document").
Proof.
  apply (second_copy_failures_are_generic Samples.second_copy_app
           Samples.pdf_request
           (Samples.scripted (Samples.extracted Samples.lease_text)
              [ Samples.generated (lit "Rent is due monthly."); Returns None ])).
  right. right. apply Exists_cons_tl. apply Exists_cons_hd. exact I.
Defined.

(** The second copy, too, answers a blank extracted text with 400 and
    calls the generation client for it not once. *)
Theorem second_copy_blank_text (a : ServerEnvKeys.app) (req : request)
    (w : world) (r : process_result) :
  In (Returns r) (process_results (second_copy_calls a req w)) ->
  trim (document_text r) = [] ->
  second_copy_reply a req w =
    Returns (error_reply 400 "Document contained no extractable text.") /\
  generate_results (second_copy_calls a req w) = [].
Proof.
  intros Hin Hblank.
  destruct (second_copy_sound w a req) as (resp & Hr & P).
  rewrite Hr.
  split_path2 P; read_trace2; try congruence.
  split; reflexivity.
Qed.

Lemma second_copy_blank_text_witness :
  second_copy_reply Samples.second_copy_app Samples.pdf_request
    (Samples.scripted (Samples.extracted (lit "  ")) []) =
    Returns (error_reply 400 "Document contained no extractable text.") /\
  generate_results
    (second_copy_calls Samples.second_copy_app Samples.pdf_request
       (Samples.scripted (Samples.extracted (lit "  ")) [])) = [].
Proof.
  exact (second_copy_blank_text Samples.second_copy_app Samples.pdf_request
           (Samples.scripted (Samples.extracted (lit "  ")) [])
           {| data := {| data_document := Some {| doc_text := Some (lit "  ") |} |} |}
           (or_introl eq_refl) eq_refl).
Defined.

(** When the extraction returns text that is not blank and every
    generation call resolves to a result, the second copy answers 200 with
    the four fields, none empty, after exactly its three requests in the
    order summary, key terms, risk. *)
Theorem second_copy_answers (a : ServerEnvKeys.app) (req : request)
    (w : world) (r : process_result) :
  In (Returns r) (process_results (second_copy_calls a req w)) ->
  trim (document_text r) <> [] ->
  Forall (fun o => ~ unusable o) (generate_results (second_copy_calls a req w)) ->
  let text := document_text r in
  (exists summary keyTerms riskAssessment,
     second_copy_reply a req w =
       Returns (analysis_reply text summary keyTerms riskAssessment) /\
     summary <> [] /\ keyTerms <> [] /\ riskAssessment <> []) /\
  generate_requests (second_copy_calls a req w) =
  [ ServerEnvKeys.user_request (ServerEnvKeys.summaryPrompt text);
    ServerEnvKeys.user_request (ServerEnvKeys.keyTermsPrompt text);
    ServerEnvKeys.user_request (ServerEnvKeys.riskPrompt text) ].
Proof.
  intros Hin Htrim Hall text. subst text.
  destruct (second_copy_sound w a req) as (resp & Hr & P).
  rewrite Hr.
  split_path2 P; read_trace2; try congruence;
    repeat match goal with
      | H : ~ unusable ?o, U : unusable ?o |- _ => destruct (H U)
      end.
  split; [|reflexivity].
  eexists _, _, _. split; [reflexivity|].
  repeat split; apply or_string_nonempty; discriminate.
Qed.

Lemma second_copy_answers_witness :
  (exists summary keyTerms riskAssessment,
     second_copy_reply Samples.second_copy_app Samples.pdf_request Samples.healthy =
       Returns (analysis_reply Samples.lease_text summary keyTerms riskAssessment) /\
     summary <> [] /\ keyTerms <> [] /\ riskAssessment <> []) /\
  generate_requests
    (second_copy_calls Samples.second_copy_app Samples.pdf_request Samples.healthy) =
  [ ServerEnvKeys.user_request (ServerEnvKeys.summaryPrompt Samples.lease_text);
    ServerEnvKeys.user_request (ServerEnvKeys.keyTermsPrompt Samples.lease_text);
    ServerEnvKeys.user_request (ServerEnvKeys.riskPrompt Samples.lease_text) ].
Proof.
  refine (second_copy_answers Samples.second_copy_app Samples.pdf_request
            Samples.healthy
            {| data := {| data_document :=
                 Some {| doc_text := Some Samples.lease_text |} |} |}
            (or_introl eq_refl) _ _).
  - vm_compute. discriminate.
  - vm_compute. repeat (apply Forall_cons; [exact (fun H => H)|]). apply Forall_nil.
Defined.

(** Start-up of the second copy: without [private_key] the module does
    not load and constructs nothing; with it, the key handed to the
    Document AI client is the variable with every backslash-[n] pair turned
    into a line feed, and a throwing [VertexAI] constructor stops the load
    with its own error. *)
Theorem second_copy_load (env : ServerEnvKeys.environment) (w : world) :
  let opts :=
    {| vo_project := ServerEnvKeys.PROJECT_ID;
       vo_location := lit "us-central1";
       vo_googleAuthOptions := None |} in
  (ServerEnvKeys.env_private_key env = None ->
   exists e, ServerEnvKeys.load_module env w [] = (Throws e, [])) /\
  (forall k e,
     ServerEnvKeys.env_private_key env = Some k ->
     new_VertexAI w opts = Some e ->
     ServerEnvKeys.load_module env w [] = (Throws e, [VertexInit opts (Some e)])) /\
  (forall k,
     ServerEnvKeys.env_private_key env = Some k ->
     new_VertexAI w opts = None ->
     exists a rest_before rest_after,
       ServerEnvKeys.load_module env w [] = (Returns a, [VertexInit opts None]) /\
       auth_credentials (da_auth (ServerEnvKeys.documentai a)) =
         VObject (rest_before
                  ++ [("private_key"%string, VString (replace_escaped_newlines k))]
                  ++ rest_after) /\
       includes (replace_escaped_newlines k) [BACKSLASH; LOWER_N] = false /\
       gm_model (ServerEnvKeys.model a) = lit "gemini-2.5-flash-lite").
Proof.
  intros opts.
  unfold ServerEnvKeys.load_module, bind, construct_vertex, ret, throw.
  fold opts.
  split; [|split].
  - intros ->. eexists. reflexivity.
  - intros k e -> ->. reflexivity.
  - intros k -> ->.
    eexists _, [_], [_; _]. split; [reflexivity|].
    split; [reflexivity|].
    split; [apply replace_escaped_newlines_complete | reflexivity].
Qed.

End SecondCopyFacts.

(* ================================================================== *)
(** * The third copy                                                    *)
(* ================================================================== *)

Ltac split_path3 P :=
  let tr := fresh "tr" in
  let E := fresh "Etr" in
  match type of P with
  | third_copy_path _ _ _ _ ?t => remember t as tr eqn:E in *
  end;
  destruct P; clear E;
  repeat match goal with
    | H : stored_text _ _ _ _ _ _ |- _ =>
        let Hf := fresh "Hfile" in
        let Hrd := fresh "Hread" in
        let Hp := fresh "Hproc" in
        let Hu := fresh "Hunlink" in
        destruct H as (Hf & Hrd & Hp & Hu)
    end.

Ltac read_trace3 :=
  unfold reading, removal, extraction3, generation3 in *;
  cbn [ServerKeyFile.remote_events ServerKeyFile.unlink_attempts
       ServerKeyFile.files_read flat_map List.app] in *;
  read_trace.

Section ThirdCopyFacts.

Import ServerKeyFile.

Lemma third_copy_sound (w : fs_world) (a : app) (req : ServerKeyFile.request) :
  exists resp,
    ServerKeyFile.reply a req w = Returns resp /\
    third_copy_path w a req resp (ServerKeyFile.calls a req w).
Proof.
  unfold ServerKeyFile.reply, ServerKeyFile.calls.
  cbv beta delta [ServerKeyFile.upload ServerKeyFile.response_text
                  ftry_catch fbind fret fthrow].
  destruct (ServerKeyFile.file req) as [f|] eqn:Hf.
  2:{ eexists. split; [reflexivity|]. now apply path3_no_file. }
  cbv beta iota zeta delta [readFileSync ServerKeyFile.process unlinkSync fst snd].
  cbn [List.app ServerKeyFile.remote_events flat_map].
  destruct (readFileSync_oracle w [] (path f)) as [bytes|e] eqn:Hrd.
  2:{ eexists. split; [reflexivity|]. now apply path3_read_failed. }
  change {| name := _; requestBody := _ |}
    with (ServerKeyFile.process_params_of a f bytes).
  destruct (process_oracle (cloud w) [] (documentai a)
              (ServerKeyFile.process_params_of a f bytes)) as [r|e] eqn:Hp.
  2:{ eexists. split; [reflexivity|]. now apply path3_extraction_failed. }
  destruct (unlinkSync_oracle w _ (path f)) as [e|] eqn:Hu.
  1:{ eexists. split; [reflexivity|]. now apply path3_unlink_failed. }
  assert (Hx : stored_text w a req f bytes r) by (repeat split; assumption).
  destruct (negb (to_boolean (VString (trim (document_text r))))) eqn:Ht.
  { apply to_boolean_string_trim in Ht.
    eexists. split; [reflexivity|]. now apply path3_no_text. }
  assert (Hn : trim (document_text r) <> []).
  { intros Hn. apply to_boolean_string_trim in Hn. congruence. }
  cbv beta iota zeta delta [ServerKeyFile.generateContent].
  cbn [List.app ServerKeyFile.remote_events flat_map].
  destruct (generate_oracle (cloud w) _ (model a)
              (user_request (ServerKeyFile.summaryPrompt _)))
    as [[r1|]|e] eqn:H1.
  2,3: eexists; (split; [reflexivity|]);
       eapply path3_summary_unusable; [exact Hx | exact Hn | exact H1 | exact I].
  destruct (generate_oracle (cloud w) _ (model a)
              (user_request (ServerKeyFile.keyTermsPrompt _)))
    as [[r2|]|e] eqn:H2.
  2,3: eexists; (split; [reflexivity|]);
       eapply path3_keyTerms_unusable;
       [exact Hx | exact Hn | exact H1 | exact H2 | exact I].
  destruct (generate_oracle (cloud w) _ (model a)
              (user_request (ServerKeyFile.riskPrompt _)))
    as [[r3|]|e] eqn:H3.
  2,3: eexists; (split; [reflexivity|]);
       eapply path3_risk_unusable;
       [exact Hx | exact Hn | exact H1 | exact H2 | exact H3 | exact I].
  eexists. split; [reflexivity|].
  now apply path3_answered.
Qed.

(** The third copy removes the uploaded file, and no other, exactly when
    the extraction call returned; when the file cannot be read or the
    extraction call throws, the file stays under [uploads/]. *)
Theorem temp_file_removed_iff_extracted (a : app) (req : ServerKeyFile.request)
    (w : fs_world) (f : stored_file) :
  ServerKeyFile.file req = Some f ->
  let tr := ServerKeyFile.calls a req w in
  (forall p, In p (unlink_attempts tr) -> p = path f) /\
  ((exists r, In (Returns r) (process_results (remote_events tr))) ->
   unlink_attempts tr = [path f]) /\
  ((forall r, ~ In (Returns r) (process_results (remote_events tr))) ->
   unlink_attempts tr = []).
Proof.
  intros Hfile tr. subst tr.
  destruct (third_copy_sound w a req) as (resp & _ & P).
  assert (Hf : forall f', ServerKeyFile.file req = Some f' -> f' = f) by congruence.
  split_path3 P;
    try match goal with
      | H : ServerKeyFile.file req = Some ?f' |- _ =>
          rewrite (Hf f' H) in *; clear H
      end;
    unfold reading, removal, extraction3, generation3;
    cbn [remote_events unlink_attempts flat_map List.app process_results In];
    (split; [intros p Hp; repeat destruct Hp as [Hp|Hp];
             try contradiction; congruence|]);
    (split; [intros (r' & Hr'); repeat destruct Hr' as [Hr'|Hr'];
             try discriminate; try contradiction; reflexivity|]);
    intros Hnone; try reflexivity;
    exfalso; eapply Hnone; left; reflexivity.
Qed.

Lemma temp_file_removed_iff_extracted_witness :
  unlink_attempts
    (ServerKeyFile.calls unset_app stored_pdf
       (scripted_fs (Returns [37; 80; 68; 70]%N) None
          (Samples.scripted (Throws Samples.permission_denied) []))) = [] /\
  unlink_attempts
    (ServerKeyFile.calls unset_app stored_pdf
       (scripted_fs (Returns [37; 80; 68; 70]%N) None Samples.healthy))
  = [lit "uploads/3f9a"].
Proof.
  split; [reflexivity|].
  refine (proj1 (proj2 (temp_file_removed_iff_extracted unset_app stored_pdf
                   (scripted_fs (Returns [37; 80; 68; 70]%N) None Samples.healthy)
                   _ eq_refl)) _).
  exists {| data := {| data_document :=
              Some {| doc_text := Some Samples.lease_text |} |} |}.
  vm_compute. left. reflexivity.
Defined.

(** When the uploaded file cannot be read, the third copy answers 500 and
    has called neither service, nor tried to remove the file. *)
Theorem read_failure_calls_nothing (a : app) (req : ServerKeyFile.request)
    (w : fs_world) (p : js_string) (e : js_error) :
  In (ReadFile p (Throws e)) (ServerKeyFile.calls a req w) ->
  ServerKeyFile.reply a req w =
    Returns (error_reply 500 "Failed to analyze document") /\
  remote_events (ServerKeyFile.calls a req w) = [] /\
  unlink_attempts (ServerKeyFile.calls a req w) = [].
Proof.
  intros Hin.
  destruct (third_copy_sound w a req) as (resp & Hr & P).
  rewrite Hr.
  split_path3 P; unfold reading, removal in *; cbn [In] in Hin;
    repeat destruct Hin as [Hin|Hin]; try discriminate Hin; try contradiction.
  repeat split.
Qed.

Lemma read_failure_calls_nothing_witness :
  ServerKeyFile.reply unset_app stored_pdf
    (scripted_fs (Throws ENOENT) None Samples.healthy) =
    Returns (error_reply 500 "Failed to analyze document") /\
  remote_events
    (ServerKeyFile.calls unset_app stored_pdf
       (scripted_fs (Throws ENOENT) None Samples.healthy)) = [] /\
  unlink_attempts
    (ServerKeyFile.calls unset_app stored_pdf
       (scripted_fs (Throws ENOENT) None Samples.healthy)) = [].
Proof.
  exact (read_failure_calls_nothing unset_app stored_pdf
           (scripted_fs (Throws ENOENT) None Samples.healthy)
           (lit "uploads/3f9a") ENOENT (or_introl eq_refl)).
Defined.

(** When removing the uploaded file fails, the third copy answers 500 and
    makes no generation call, although the extraction had returned; the
    extracted text is lost, blank or not. *)
Theorem unlink_failure_discards_text (a : app) (req : ServerKeyFile.request)
    (w : fs_world) (p : js_string) (e : js_error) :
  In (Unlink p (Some e)) (ServerKeyFile.calls a req w) ->
  ServerKeyFile.reply a req w =
    Returns (error_reply 500 "Failed to analyze document") /\
  generate_results (remote_events (ServerKeyFile.calls a req w)) = [] /\
  exists r,
    process_results (remote_events (ServerKeyFile.calls a req w)) = [Returns r].
Proof.
  intros Hin.
  destruct (third_copy_sound w a req) as (resp & Hr & P).
  rewrite Hr.
  split_path3 P; unfold reading, removal in *; cbn [In] in Hin;
    repeat destruct Hin as [Hin|Hin]; try discriminate Hin; try contradiction.
  split; [reflexivity|]. split; [reflexivity|]. eexists. reflexivity.
Qed.

Lemma unlink_failure_discards_text_witness :
  ServerKeyFile.reply unset_app stored_pdf
    (scripted_fs (Returns [37; 80; 68; 70]%N) (Some EPERM) Samples.healthy) =
    Returns (error_reply 500 "Failed to analyze document") /\
  generate_results
    (remote_events
       (ServerKeyFile.calls unset_app stored_pdf
          (scripted_fs (Returns [37; 80; 68; 70]%N) (Some EPERM) Samples.healthy)))
  = [].
Proof.
  destruct (unlink_failure_discards_text unset_app stored_pdf
              (scripted_fs (Returns [37; 80; 68; 70]%N) (Some EPERM) Samples.healthy)
              (lit "uploads/3f9a") EPERM
              (or_intror (or_intror (or_introl eq_refl))))
    as (Hr & Hg & _).
  split; [exact Hr | exact Hg].
Defined.

(** The extraction request of the third copy carries the base64 of the
    bytes read from the path multer stored the upload under, read once, and
    the MIME type of the upload; with [PROJECT_ID] and [PROCESSOR_ID] unset
    its processor name holds the text [undefined] in their places. *)
Theorem third_copy_sends_what_it_read (a : app) (req : ServerKeyFile.request)
    (w : fs_world) (client : documentai_client) (params : process_params)
    (o : outcome process_result) :
  In (Remote (ProcessCall client params o)) (ServerKeyFile.calls a req w) ->
  exists f bytes rest,
    ServerKeyFile.file req = Some f /\
    ServerKeyFile.calls a req w =
      ReadFile (path f) (Returns bytes) :: Remote (ProcessCall client params o)
      :: rest /\
    files_read (ServerKeyFile.calls a req w) = [path f] /\
    content (rawDocument (requestBody params)) = base64 bytes /\
    mimeType (rawDocument (requestBody params)) = ServerKeyFile.mimetype f /\
    (PROJECT_ID a = None -> PROCESSOR_ID a = None ->
     name params = lit "projects/undefined/locations/us/processors/undefined").
Proof.
  intros Hin.
  destruct (third_copy_sound w a req) as (resp & _ & P).
  split_path3 P; unfold reading, removal, extraction3, generation3 in *;
    cbn [In] in Hin;
    repeat destruct Hin as [Hin|Hin]; try discriminate Hin; try contradiction;
    injection Hin as <- <- <-;
    eexists f, bytes, _;
    (split; [assumption|]); (split; [reflexivity|]); (split; [reflexivity|]);
    (split; [reflexivity|]); (split; [reflexivity|]);
    intros Hp Hq; cbn [name ServerKeyFile.process_params_of];
    rewrite Hp, Hq; reflexivity.
Qed.

Lemma third_copy_sends_what_it_read_witness :
  exists f bytes rest,
    ServerKeyFile.file stored_pdf = Some f /\
    ServerKeyFile.calls unset_app stored_pdf
      (scripted_fs (Returns [37; 80; 68; 70]%N) None Samples.healthy) =
      ReadFile (path f) (Returns bytes)
      :: Remote
           (ProcessCall (documentai unset_app)
              {| name := lit "projects/undefined/locations/us/processors/undefined";
                 requestBody :=
                   {| rawDocument :=
                        {| content := lit "JVBERg==";
                           mimeType := lit "application/pdf" |} |} |}
              (Samples.extracted Samples.lease_text))
      :: rest.
Proof.
  destruct (third_copy_sends_what_it_read unset_app stored_pdf
              (scripted_fs (Returns [37; 80; 68; 70]%N) None Samples.healthy)
              (documentai unset_app)
              {| name := lit "projects/undefined/locations/us/processors/undefined";
                 requestBody :=
                   {| rawDocument :=
                        {| content := lit "JVBERg==";
                           mimeType := lit "application/pdf" |} |} |}
              (Samples.extracted Samples.lease_text)
              (or_intror (or_introl eq_refl)))
    as (f & bytes & rest & Hf & Hc & _).
  exists f, bytes, rest. split; [exact Hf | exact Hc].
Defined.

(** A request without a file part: the third copy answers 500, like the
    second, and touches neither the file system nor the services. *)
Theorem third_copy_no_file (a : app) (w : fs_world) :
  ServerKeyFile.upload a {| ServerKeyFile.file := None |} w [] =
  (Returns (error_reply 500 "Failed to analyze document"), []).
Proof. reflexivity. Qed.

(** The third copy answers like the second: the analysis with no empty
    field, the 400 of the blank document, or one 500 without [detail]. *)
Theorem third_copy_reply_taxonomy (a : app) (req : ServerKeyFile.request)
    (w : fs_world) :
  exists resp,
    ServerKeyFile.reply a req w = Returns resp /\
    (resp = error_reply 500 "Failed to analyze document" \/
     resp = error_reply 400 "Document contained no extractable text." \/
     exists text summary keyTerms riskAssessment,
       resp = analysis_reply text summary keyTerms riskAssessment /\
       text <> [] /\ summary <> [] /\ keyTerms <> [] /\ riskAssessment <> []) /\
    get_prop "detail" (body resp) = None.
Proof.
  destruct (third_copy_sound w a req) as (resp & Hr & P).
  exists resp. split; [exact Hr|].
  destruct P; (split; [| reflexivity]); auto.
  right. right. eexists _, _, _, _. split; [reflexivity|].
  split; [intros Hnil; match goal with H : trim _ <> [] |- _ => apply H end;
          exact (f_equal trim Hnil)|].
  repeat split; apply or_string_nonempty; discriminate.
Qed.

End ThirdCopyFacts.
